(** * NYCT No-Writer: the Analyze and Generate operations and the UI wizard

    A shallow embedding of
    - [supabase/functions/generate-decline/index.ts] (the Generate handler),
    - [supabase/functions/analyze-proposal/index.ts] (the Analyze handler),
    - [frontend/src/components/DeclineInput.tsx] (the reason selection list),
    - [frontend/src/App.tsx] (the wizard's event handlers and templates),
    followed by the properties of the specification that hold of them and
    concrete inputs at which the others fail.

    Conventions.  A JavaScript string is a [string]; one [ascii] stands for one
    code unit, so [substring] and [length] count as the source does on text in
    that range.  An optional value ([string | null | undefined]) is an
    [optional].  A request body that parses is taken to be well typed, as the
    operation's contract states.  Everything outside the repository that a
    handler talks to (the platform's secret store, the OpenAI SDK, [JSON.parse]
    on a model reply, [fetch] in the browser) is an explicit input. *)

From stdpp Require Import base option list strings gmap.
From Stdlib Require Import ZArith Ascii.

Set Warnings "-register-all,-abstract-large-number".

(* ------------------------------------------------------------------ *)
(** * JavaScript strings and values *)

Module Js.

(** [string | null | undefined] and its relatives. *)
Inductive optional (A : Type) : Type :=
| Undefined
| Null
| Value (a : A).
Global Arguments Undefined {A}.
Global Arguments Null {A}.
Global Arguments Value {A} a.

(** [v || d] for a string-valued [v]: the empty string is falsy too. *)
Definition or_string (s d : string) : string :=
  if decide (s = EmptyString) then d else s.

Definition or_default (v : optional string) (d : string) : string :=
  match v with
  | Value s => or_string s d
  | Undefined | Null => d
  end.

(** [v ? a : b]. *)
Definition truthy (v : optional string) : bool :=
  match v with
  | Value s => bool_decide (s ≠ EmptyString)
  | Undefined | Null => false
  end.

(** The text a template literal inserts for [${v}]. *)
Definition interpolate (v : optional string) : string :=
  match v with
  | Undefined => "undefined"
  | Null => "null"
  | Value s => s
  end.

(** [String.prototype.toLowerCase]: the letters A to Z and, further up in
    the range modelled, the capital letters from 192 to 222 (215 is the
    multiplication sign). *)
Definition lower_char (c : ascii) : ascii :=
  let n := Ascii.N_of_ascii c in
  if ((65 <=? n) && (n <=? 90)
      || (192 <=? n) && (n <=? 222) && negb (n =? 215))%N
  then Ascii.ascii_of_N (n + 32)
  else c.

Fixpoint toLowerCase (s : string) : string :=
  match s with
  | EmptyString => EmptyString
  | String c s' => String (lower_char c) (toLowerCase s')
  end.

(** [s.substring(0, n)]. *)
Fixpoint prefix (n : nat) (s : string) : string :=
  match n, s with
  | S n', String c s' => String c (prefix n' s')
  | _, _ => EmptyString
  end.

(** [s.startsWith(p)], [s.includes(p)] and [s.endsWith(p)]. *)
Fixpoint startsWith (p s : string) : bool :=
  match p, s with
  | EmptyString, _ => true
  | String a p', String b s' => bool_decide (a = b) && startsWith p' s'
  | String _ _, EmptyString => false
  end.

Fixpoint includes (p s : string) : bool :=
  startsWith p s ||
  match s with
  | EmptyString => false
  | String _ s' => includes p s'
  end.

Fixpoint endsWith (p s : string) : bool :=
  bool_decide (s = p) ||
  match s with
  | EmptyString => false
  | String _ s' => endsWith p s'
  end.

(** [s.split(sep)] for a one-character separator. *)
Fixpoint split (sep : ascii) (s : string) : list string :=
  match s with
  | EmptyString => [EmptyString]
  | String c s' =>
      if decide (c = sep) then EmptyString :: split sep s'
      else match split sep s' with
           | piece :: rest => String c piece :: rest
           | [] => [String c EmptyString]
           end
  end.

(** [s.trim()]: the white space and line terminators of the range modelled
    (tab, line feed, vertical tab, form feed, carriage return, space and the
    no-break space). *)
Definition white_space (c : ascii) : bool :=
  let n := Ascii.N_of_ascii c in
  ((9 <=? n) && (n <=? 13) || (n =? 32) || (n =? 160))%N.

Fixpoint trimStart (s : string) : string :=
  match s with
  | String c s' => if white_space c then trimStart s' else s
  | EmptyString => EmptyString
  end.

Definition trim (s : string) : string :=
  String.rev (trimStart (String.rev (trimStart s))).

(** What a thrown value is. *)
Inductive exn : Type :=
| SyntaxError      (* JSON.parse, Body.json on text that is not JSON *)
| TypeError        (* reading a consumed body, calling a non-function, ... *)
| OpenAIError      (* the SDK refuses to build a client *)
| APIError         (* the SDK call rejects: network, auth, rate limit *)
| Error (msg : string).

Inductive result (A : Type) : Type :=
| Ok (a : A)
| Throw (e : exn).
Global Arguments Ok {A} a.
Global Arguments Throw {A} e.

Global Instance result_ret : MRet result := λ A a, Ok a.
Global Instance result_bind : MBind result := λ A B f r,
  match r with
  | Ok a => f a
  | Throw e => Throw e
  end.

Definition of_option {A} (e : exn) (o : option A) : result A :=
  match o with
  | Some a => Ok a
  | None => Throw e
  end.

(** JSON values.  An object keeps its members in insertion order, which is
    the order [JSON.stringify] writes them in. *)
Inductive Json : Type :=
| JNull
| JBool (b : bool)
| JNum (n : Z)
| JStr (s : string)
| JArr (items : list Json)
| JObj (members : list (string * Json)).

Fixpoint assoc {A} (k : string) (l : list (string * A)) : option A :=
  match l with
  | [] => None
  | (k', v) :: l' => if decide (k = k') then Some v else assoc k l'
  end.

(** [j[k]] on a parsed value; [None] is [undefined]. *)
Definition member (k : string) (j : Json) : option Json :=
  match j with
  | JObj ms => assoc k ms
  | _ => None
  end.

(** The property names every object literal inherits from
    [Object.prototype]: reading one of them never yields [undefined]. *)
Definition Object_prototype : list string :=
  [ "constructor"; "hasOwnProperty"; "isPrototypeOf"; "propertyIsEnumerable";
    "toLocaleString"; "toString"; "valueOf"; "__proto__";
    "__defineGetter__"; "__defineSetter__";
    "__lookupGetter__"; "__lookupSetter__" ].

(** [table[key]] on an object literal whose own properties are strings. *)
Inductive property : Type :=
| Own (s : string)     (* an own property of the literal *)
| Inherited            (* a method or object found on the prototype *)
| Missing.             (* undefined *)

Definition get (table : gmap string string) (key : string) : property :=
  match table !! key with
  | Some s => Own s
  | None => if decide (key ∈ Object_prototype) then Inherited else Missing
  end.

(** ** Effects

    A handler runs against a store [S] (for the backend: how often the
    request body can still be consumed) and either returns or throws. *)
Definition Eff (S A : Type) : Type := S → result A * S.

Global Instance Eff_ret {S} : MRet (Eff S) := λ A a s, (Ok a, s).
Global Instance Eff_bind {S} : MBind (Eff S) := λ A B f m s,
  match m s with
  | (Ok a, s') => f a s'
  | (Throw e, s') => (Throw e, s')
  end.
Global Instance Eff_throw {S} : MThrow exn (Eff S) := λ A e s, (Throw e, s).

(** [try { m } catch (error) { h error }]. *)
Definition try_catch {S A} (m : Eff S A) (h : exn → Eff S A) : Eff S A :=
  λ s, match m s with
       | (Ok a, s') => (Ok a, s')
       | (Throw e, s') => h e s'
       end.

(** Lifting a computation that throws or returns without touching the store. *)
Definition lift {S A} (r : result A) : Eff S A := λ s, (r, s).

End Js.
Export Js.

(* ------------------------------------------------------------------ *)
(** * The data model *)

(** [ExtractedProposalData] of [ProposalSummary.tsx]: the proposal summary. *)
Record ExtractedProposalData : Type := {
  organizationName : optional string;
  organizationMission : optional string;
  foundingYear : optional string;
  grantAmount : optional string;
  projectDescription : optional string;
  targetPopulation : optional string;
  geographicScope : optional string;
  currentBudget : optional string;
  projectBudget : optional string;
  peopleServed : optional string;
  keyDeliverables : optional (list string);
  timeline : optional string;
}.

(** The names of the declared fields, as they appear on the wire. *)
Definition string_fields : list string :=
  [ "organizationName"; "organizationMission"; "foundingYear"; "grantAmount";
    "projectDescription"; "targetPopulation"; "geographicScope";
    "currentBudget"; "projectBudget"; "peopleServed"; "timeline" ].
Definition list_fields : list string := [ "keyDeliverables" ].
Definition declared_fields : list string := string_fields ++ list_fields.

(** The body of a Generate request. *)
Record DeclineRequest : Type := {
  reason_code : string;
  specific_reasons : string;
  proposal_summary : ExtractedProposalData;
}.

(** The body of an Analyze request. *)
Record AnalyzeRequest : Type := {
  text_content : string;
  filename : optional string;
}.

(* ------------------------------------------------------------------ *)
(** * The platform the edge functions run on *)

Module Platform.

(** A request: its method and what [req.json()] makes of its body ([None]:
    the body is not JSON).  How many times the body can still be consumed is
    the store the handler runs against: a request of the Fetch standard
    starts with one read, a stand-in object whose [json()] answers every call
    with as many as one likes. *)
Record Request (B : Type) : Type := {
  method : string;
  json : option B;
}.
Global Arguments method {B} _.
Global Arguments json {B} _.

Definition reads : Type := nat.

(** [await req.json()]: consumes the body, then parses it. *)
Definition req_json {B} (req : Request B) : Eff reads B :=
  λ left,
    match left with
    | 0 => (Throw TypeError, 0)
    | S left' =>
        match json req with
        | Some b => (Ok b, left')
        | None => (Throw SyntaxError, left')
        end
    end.

Inductive Body : Type :=
| Text (s : string)
| JsonText (j : Json).          (* JSON.stringify(j) *)

Record Response : Type := {
  status : nat;
  headers : gmap string string;
  body : Body;
}.

(** What the caller of a handler gets: a response, or a rejected promise. *)
Inductive outcome : Type :=
| Responded (r : Response)
| Rejected (e : exn).

Definition run (h : Eff reads Response) (available : reads) : outcome :=
  match h available with
  | (Ok r, _) => Responded r
  | (Throw e, _) => Rejected e
  end.

(** A chat completion of the OpenAI SDK, as far as the handlers read it. *)
Record Message : Type := { content : option string }.   (* string | null *)
Record Choice : Type := { message : Message }.
Record ChatCompletion : Type := { choices : list Choice }.

(** A prompt is kept as the values interpolated into its template; the
    wording around them, the model name, the temperature and the token
    limit are constants of each call site. *)
Inductive Prompt : Type :=
| MemoPrompt (declined_for specific rationale : string)
             (summary : ExtractedProposalData)
| LetterPrompt (organization : string)
| ExtractionPrompt (proposal_text : string).

(** The environment of one invocation. *)
Record Env : Type := {
  (** [Deno.env.get('OPENAI_API_KEY')] *)
  OPENAI_API_KEY : option string;
  (** [openai.chat.completions.create]; [None]: the call rejects *)
  chat_completions_create : Prompt → option ChatCompletion;
  (** [JSON.parse] on text; [None]: it throws *)
  JSON_parse : string → option Json;
}.

(** [new OpenAI({ apiKey })]: the SDK's constructor throws when it is
    given no key. *)
Definition new_OpenAI (apiKey : option string) : result string :=
  match apiKey with
  | Some k => Ok k
  | None => Throw OpenAIError
  end.

Definition create {S} (env : Env) (p : Prompt) : Eff S ChatCompletion :=
  match chat_completions_create env p with
  | Some c => mret c
  | None => mthrow APIError
  end.

(** [completion.choices[0].message.content] *)
Definition first_content {S} (c : ChatCompletion) : Eff S (option string) :=
  match choices c !! 0 with
  | Some ch => mret (content (message ch))
  | None => mthrow TypeError
  end.

Definition json_of_content (c : option string) : Json :=
  match c with
  | Some s => JStr s
  | None => JNull
  end.

(** Both functions declare the same [corsHeaders]. *)
Definition corsHeaders : gmap string string :=
  list_to_map
    [ ("Access-Control-Allow-Origin", "*");
      ("Access-Control-Allow-Headers",
       "authorization, x-client-info, apikey, content-type") ].

(** [{ ...corsHeaders, 'Content-Type': 'application/json' }] *)
Definition jsonHeaders : gmap string string :=
  <["Content-Type" := "application/json"]> corsHeaders.

(** [new Response('ok', { headers: corsHeaders })] *)
Definition preflight : Response :=
  {| status := 200; headers := corsHeaders; body := Text "ok" |}.

(** [new Response(JSON.stringify(j), { headers: ..., status: 200 })] *)
Definition json_response (j : Json) : Response :=
  {| status := 200; headers := jsonHeaders; body := JsonText j |}.

End Platform.
Export Platform.

(* ------------------------------------------------------------------ *)
(** * The Generate operation: [generate-decline/index.ts] *)

Module GenerateDecline.

Definition reasonDescriptions : gmap string string :=
  list_to_map
    [ ("project_capability", "Project Capability Problems");
      ("general_operating", "General Operating Support");
      ("higher_merit", "Other Projects Higher Merit");
      ("outside_guidelines", "Outside Approved Guidelines");
      ("incomplete_proposal", "Incomplete Proposal");
      ("geographic_scope", "Geographic Scope Limitation");
      ("strategic_mismatch", "Strategic Priority Mismatch");
      ("sustainability", "Sustainability Concerns") ].

(** The two label expressions of the memo templates, in the order a
    template evaluates them:
      [reasonDescriptions[reason_code]?.toLowerCase() || 'the specified reason']
      [reasonDescriptions[reason_code] || 'Decline Reason'].
    On an inherited property the first calls [undefined] and throws before
    the second is reached. *)
Definition labels (reason_code : string) : result (string * string) :=
  match get reasonDescriptions reason_code with
  | Own label =>
      Ok (or_string (toLowerCase label) "the specified reason",
          or_string label "Decline Reason")
  | Missing => Ok ("the specified reason", "Decline Reason")
  | Inherited => Throw TypeError
  end.

Definition memoPrompt (r : DeclineRequest) : result Prompt :=
  match labels (reason_code r) with
  | Ok (declined_for, rationale) =>
      Ok (MemoPrompt declined_for (specific_reasons r) rationale
                     (proposal_summary r))
  | Throw e => Throw e
  end.

Definition letterPrompt (r : DeclineRequest) : Prompt :=
  LetterPrompt
    (or_default (organizationName (proposal_summary r)) "the organization").

Definition fallbackMemo (r : DeclineRequest) : result string :=
  let s := proposal_summary r in
  match labels (reason_code r) with
  | Ok (declined_for, rationale) =>
      Ok (or_default (organizationName s) "The organization"
          +:+ " requests " +:+ or_default (grantAmount s) "funding"
          +:+ " to support "
          +:+ or_default (projectDescription s) "their project" +:+ ".

I recommend this request be declined for " +:+ declined_for +:+ ". "
          +:+ specific_reasons r +:+ "

Rationale: " +:+ rationale)
  | Throw e => Throw e
  end.

Definition fallbackLetter (r : DeclineRequest) : string :=
  "Dear " +:+ or_default (organizationName (proposal_summary r)) "Applicant"
  +:+ ",

Thank you for your proposal submission to The New York Community Trust. We appreciate your organization's dedication to serving the community.

After careful review, we have determined that we will not be able to provide funding for this request at this time. While we recognize your important work, this proposal does not align with our current funding priorities.

We encourage you to review our updated guidelines and consider applying for future opportunities.

Best regards,
NYCT Program Team".

(** The object handed to [JSON.stringify] for the reply. *)
Definition reply (internal_rationale external_reply : Json) (ms : Z) : Json :=
  JObj [ ("internal_rationale", internal_rationale);
         ("external_reply", external_reply);
         ("generation_time_ms", JNum ms) ].

(** The body of the [try] block. *)
Definition attempt (env : Env) (req : Request DeclineRequest)
  : Eff reads Response :=
  r ← req_json req;
  _ ← lift (new_OpenAI (OPENAI_API_KEY env));
  p ← lift (memoPrompt r);
  memoCompletion ← create env p;
  internalMemo ← first_content memoCompletion;
  letterCompletion ← create env (letterPrompt r);
  externalLetter ← first_content letterCompletion;
  mret (json_response
          (reply (json_of_content internalMemo)
                 (json_of_content externalLetter) 3000)).

(** The body of the [catch] block. *)
Definition fallback (req : Request DeclineRequest) (error : exn)
  : Eff reads Response :=
  r ← req_json req;
  memo ← lift (fallbackMemo r);
  mret (json_response (reply (JStr memo) (JStr (fallbackLetter r)) 1000)).

Definition handler (env : Env) (req : Request DeclineRequest)
  : Eff reads Response :=
  if decide (method req = "OPTIONS") then mret preflight
  else try_catch (attempt env req) (fallback req).

End GenerateDecline.

(* ------------------------------------------------------------------ *)
(** * The Analyze operation: [analyze-proposal/index.ts] *)

Module AnalyzeProposal.

Definition extractionPrompt (r : AnalyzeRequest) : Prompt :=
  ExtractionPrompt (prefix 8000 (text_content r)).

(** [JSON.parse(content)]: a [null] content is parsed as the text [null]. *)
Definition parse {S} (env : Env) (content : option string) : Eff S Json :=
  match JSON_parse env (default "null" content) with
  | Some j => mret j
  | None => mthrow SyntaxError
  end.

Definition reply (summary : Json) (ms : Z) : Json :=
  JObj [ ("summary", summary); ("analysis_time_ms", JNum ms) ].

(** The summary of the [catch] block. *)
Definition basic_extraction : Json :=
  JObj [ ("organizationName", JStr "Organization");
         ("projectDescription", JStr "Unable to fully analyze proposal");
         ("grantAmount", JStr "Unknown") ].

(** The body of the [try] block. *)
Definition attempt (env : Env) (req : Request AnalyzeRequest)
  : Eff reads Response :=
  r ← req_json req;
  _ ← lift (new_OpenAI (OPENAI_API_KEY env));
  completion ← create env (extractionPrompt r);
  text ← first_content completion;
  extractedData ← parse env text;
  mret (json_response (reply extractedData 2000)).

(** The body of the [catch] block. *)
Definition fallback (error : exn) : Eff reads Response :=
  mret (json_response (reply basic_extraction 1000)).

Definition handler (env : Env) (req : Request AnalyzeRequest)
  : Eff reads Response :=
  if decide (method req = "OPTIONS") then mret preflight
  else try_catch (attempt env req) fallback.

End AnalyzeProposal.

(* ------------------------------------------------------------------ *)
(** * The reason selection list: [DeclineInput.tsx] *)

Module DeclineInput.

Record ReasonCode : Type := { value : string; label : string }.

Definition DECLINE_REASONS : list ReasonCode :=
  [ {| value := "project_capability"; label := "Project Capability Problems" |};
    {| value := "general_operating"; label := "General Operating Support" |};
    {| value := "higher_merit"; label := "Other Projects Higher Merit" |};
    {| value := "outside_guidelines"; label := "Outside Approved Guidelines" |};
    {| value := "incomplete_proposal"; label := "Incomplete Proposal" |};
    {| value := "geographic_scope"; label := "Geographic Scope Limitation" |};
    {| value := "strategic_mismatch"; label := "Strategic Priority Mismatch" |};
    {| value := "sustainability"; label := "Sustainability Concerns" |} ].

(** What the reason [<select>] can hold: its placeholder option and the
    eight listed values. *)
Definition options : list string :=
  EmptyString :: (value <$> DECLINE_REASONS).

(** The form's validation messages. *)
Record Errors : Type := { reason : option string; details : option string }.

(** [handleGenerate]: the messages it sets, or [inr] of the arguments it
    hands to [onGenerate]. *)
Definition handleGenerate (selectedReason specificReasons : string)
  : Errors + string * string :=
  let newErrors :=
    {| reason :=
         if decide (selectedReason = EmptyString)
         then Some "Please select a decline reason" else None;
       details :=
         if decide (trim specificReasons = EmptyString)
         then Some "Please provide specific reasons for the decline"
         else None |} in
  match reason newErrors, details newErrors with
  | None, None => inr (selectedReason, specificReasons)
  | _, _ => inl newErrors
  end.

(** The project line of the quick reference:
    [{proposalSummary.projectDescription?.substring(0, 100)}...]. *)
Definition projectPreview (proposalSummary : ExtractedProposalData) : string :=
  match projectDescription proposalSummary with
  | Value d => prefix 100 d
  | Undefined | Null => EmptyString
  end +:+ "...".

End DeclineInput.

(* ------------------------------------------------------------------ *)
(** * The review panel: [ProposalSummary.tsx] *)

Module ProposalSummary.

(** What the component puts on screen: the spinner, or the labelled values
    in document order, the deliverables and the two buttons. *)
Inductive view : Type :=
| Loading
| Panel (rows : list (string * string)) (deliverables : list string).

(** [{v && (<row/>)}] *)
Definition when_present (label : string) (v : optional string)
  : list (string * string) :=
  if truthy v then [ (label, interpolate v) ] else [].

Definition rows (summaryData : ExtractedProposalData)
  : list (string * string) :=
  [ ("Organization",
     or_default (organizationName summaryData) "Not extracted") ]
  ++ when_present "Founded" (foundingYear summaryData)
  ++ [ ("Grant Amount Requested",
        or_default (grantAmount summaryData) "Not extracted") ]
  ++ when_present "Current Operating Budget" (currentBudget summaryData)
  ++ [ ("Target Population",
        or_default (targetPopulation summaryData) "Not extracted");
       ("Geographic Scope",
        or_default (geographicScope summaryData) "Not extracted") ]
  ++ when_present "People Served" (peopleServed summaryData)
  ++ when_present "Organization Mission" (organizationMission summaryData)
  ++ [ ("Project Description",
        or_default (projectDescription summaryData)
          "No project description extracted") ].

(** The list is drawn when [keyDeliverables] is there and not empty. *)
Definition deliverables (summaryData : ExtractedProposalData) : list string :=
  match keyDeliverables summaryData with
  | Value items => items
  | Undefined | Null => []
  end.

Definition render (summaryData : ExtractedProposalData) (isLoading : bool)
  : view :=
  if isLoading then Loading
  else Panel (rows summaryData) (deliverables summaryData).

End ProposalSummary.

(* ------------------------------------------------------------------ *)
(** * The wizard: [App.tsx] *)

Module App.

Record GeneratedOutput : Type := {
  internal_rationale : string;
  external_reply : string;
  generation_time_ms : Z;
}.

Record UploadedFile : Type := {
  proposal_hash : string;
  text_content : string;
  filename : string;
  size : Z;
}.

Inductive Stage : Type := upload | analysis | decline | output.

(** The component's state variables. *)
Record State : Type := {
  currentStage : Stage;
  uploadedFile : option UploadedFile;
  proposalSummary : option ExtractedProposalData;
  generatedOutput : option GeneratedOutput;
  isAnalyzing : bool;
  isGenerating : bool;
  showMetrics : bool;
}.

Definition setCurrentStage (v : Stage) (st : State) : State :=
  {| currentStage := v; uploadedFile := uploadedFile st;
     proposalSummary := proposalSummary st;
     generatedOutput := generatedOutput st; isAnalyzing := isAnalyzing st;
     isGenerating := isGenerating st; showMetrics := showMetrics st |}.
Definition setUploadedFile (v : option UploadedFile) (st : State) : State :=
  {| currentStage := currentStage st; uploadedFile := v;
     proposalSummary := proposalSummary st;
     generatedOutput := generatedOutput st; isAnalyzing := isAnalyzing st;
     isGenerating := isGenerating st; showMetrics := showMetrics st |}.
Definition setProposalSummary (v : option ExtractedProposalData) (st : State)
  : State :=
  {| currentStage := currentStage st; uploadedFile := uploadedFile st;
     proposalSummary := v;
     generatedOutput := generatedOutput st; isAnalyzing := isAnalyzing st;
     isGenerating := isGenerating st; showMetrics := showMetrics st |}.
Definition setGeneratedOutput (v : option GeneratedOutput) (st : State)
  : State :=
  {| currentStage := currentStage st; uploadedFile := uploadedFile st;
     proposalSummary := proposalSummary st;
     generatedOutput := v; isAnalyzing := isAnalyzing st;
     isGenerating := isGenerating st; showMetrics := showMetrics st |}.
Definition setIsAnalyzing (v : bool) (st : State) : State :=
  {| currentStage := currentStage st; uploadedFile := uploadedFile st;
     proposalSummary := proposalSummary st;
     generatedOutput := generatedOutput st; isAnalyzing := v;
     isGenerating := isGenerating st; showMetrics := showMetrics st |}.
Definition setIsGenerating (v : bool) (st : State) : State :=
  {| currentStage := currentStage st; uploadedFile := uploadedFile st;
     proposalSummary := proposalSummary st;
     generatedOutput := generatedOutput st; isAnalyzing := isAnalyzing st;
     isGenerating := v; showMetrics := showMetrics st |}.

(** What a handler does to the world outside the component: the URLs it
    fetches and the alerts it raises, oldest first. *)
Record Browser : Type := {
  fetches : list string;
  alerts : list string;
}.

Definition fetch (url : string) (b : Browser) : Browser :=
  {| fetches := fetches b ++ [url]; alerts := alerts b |}.
Definition alert (msg : string) (b : Browser) : Browser :=
  {| fetches := fetches b; alerts := alerts b ++ [msg] |}.

(** [config.ts]: the two endpoints, fixed when the bundle is built. *)
Record Config : Type := { ANALYZE_URL : string; GENERATE_URL : string }.

(** What [fetch(ANALYZE_URL, ...)] leads to: the promise rejects, or a reply
    arrives with its [ok] flag and what [response.json()] makes of its body
    ([None]: not JSON), of which only [data.summary] is read. *)
Inductive fetched : Type :=
| NetworkError
| Reply (ok : bool) (data_summary : option (optional ExtractedProposalData)).

(** ** Extraction helpers *)

Fixpoint labelled_line (lines : list string) : optional string :=
  match lines with
  | [] => Undefined
  | line :: rest =>
      if includes "Organization:" line || includes "Applicant:" line
      then match split ":" line !! 1 with
           | Some piece => Value (trim piece)
           | None => Undefined
           end
      else labelled_line rest
  end.

Definition extractOrganizationName (text : string) : optional string :=
  labelled_line (split "010" text).

(** The pattern [/\$[\d,]+(?:\.\d{2})?/]. *)
Definition digit (c : ascii) : bool :=
  let n := Ascii.N_of_ascii c in ((48 <=? n) && (n <=? 57))%N.

Definition digit_or_comma (c : ascii) : bool :=
  digit c || bool_decide (c = ","%char).

(** The longest run of [[\d,]] at the head of [s], and what follows it. *)
Fixpoint span (s : string) : string * string :=
  match s with
  | String c s' =>
      if digit_or_comma c
      then let '(run, rest) := span s' in (String c run, rest)
      else (EmptyString, s)
  | EmptyString => (EmptyString, EmptyString)
  end.

(** [(?:\.\d{2})?] *)
Definition cents (s : string) : string :=
  match s with
  | String c (String a (String b _)) =>
      if bool_decide (c = "."%char) && digit a && digit b
      then String c (String a (String b EmptyString))
      else EmptyString
  | _ => EmptyString
  end.

(** A match that starts at the head of [s]. *)
Definition match_here (s : string) : option string :=
  match s with
  | String c s' =>
      if decide (c = "$"%char)
      then let '(run, rest) := span s' in
           if decide (run = EmptyString) then None
           else Some (String c (run +:+ cents rest))
      else None
  | EmptyString => None
  end.

(** [text.match(...)[0]]: the leftmost match. *)
Fixpoint amountMatch (text : string) : option string :=
  match match_here text with
  | Some m => Some m
  | None =>
      match text with
      | String _ text' => amountMatch text'
      | EmptyString => None
      end
  end.

Definition extractGrantAmount (text : string) : optional string :=
  match amountMatch text with
  | Some m => Value m
  | None => Undefined
  end.

(** The two summaries [handleFileUploaded] builds from the raw text. *)
Definition fallbackSummary (file : UploadedFile) : ExtractedProposalData :=
  {| organizationName :=
       Value (or_default (extractOrganizationName (text_content file))
                         "Organization");
     grantAmount :=
       Value (or_default (extractGrantAmount (text_content file))
                         "Amount not specified");
     projectDescription :=
       Value (or_string (prefix 200 (text_content file))
                        "Project description");
     targetPopulation := Value "Community members";
     geographicScope := Value "Local area";
     organizationMission := Undefined; foundingYear := Undefined;
     currentBudget := Undefined; projectBudget := Undefined;
     peopleServed := Undefined; keyDeliverables := Undefined;
     timeline := Undefined |}.

Definition basicSummary (file : UploadedFile) : ExtractedProposalData :=
  {| organizationName :=
       Value (or_default (extractOrganizationName (text_content file))
                         "Organization");
     grantAmount :=
       Value (or_default (extractGrantAmount (text_content file))
                         "Funding amount not specified");
     projectDescription :=
       Value (or_string (prefix 300 (text_content file))
                        "See uploaded document");
     targetPopulation := Value "See proposal details";
     geographicScope := Value "See proposal details";
     organizationMission := Undefined; foundingYear := Undefined;
     currentBudget := Undefined; projectBudget := Undefined;
     peopleServed := Undefined; keyDeliverables := Undefined;
     timeline := Undefined |}.

Definition analysis_alert : string :=
  "Note: Using basic text extraction. For full AI analysis, ensure Supabase functions are configured.".

(** The [try] block of [handleFileUploaded], after the fetch was issued:
    the summary it stores, or the exception it throws. *)
Definition analysed (net : fetched) (file : UploadedFile)
  : result ExtractedProposalData :=
  match net with
  | NetworkError => Throw TypeError
  | Reply false _ => Throw (Error "Failed to analyze proposal")
  | Reply true None => Throw SyntaxError
  | Reply true (Some (Value summary)) => Ok summary
  | Reply true (Some (Undefined | Null)) => Ok (fallbackSummary file)
  end.

Definition handleFileUploaded (cfg : Config) (net : fetched)
    (file : option UploadedFile) (st : State) (b : Browser)
  : State * Browser :=
  match file with
  | None => (st, b)
  | Some file =>
      let st := setIsAnalyzing true
                  (setCurrentStage analysis
                     (setUploadedFile (Some file) st)) in
      let b := fetch (ANALYZE_URL cfg) b in
      match analysed net file with
      | Ok summary =>
          (setIsAnalyzing false (setProposalSummary (Some summary) st), b)
      | Throw _ =>
          (setIsAnalyzing false
             (setProposalSummary (Some (basicSummary file)) st),
           alert analysis_alert b)
      end
  end.

(** ** The generate step *)

Definition reasonLabels : gmap string string :=
  list_to_map
    [ ("project_capability", "Project Capability Problems");
      ("general_operating", "General Operating Support");
      ("higher_merit", "Other Projects Higher Merit");
      ("outside_guidelines", "Outside Approved Guidelines");
      ("incomplete_proposal", "Incomplete Proposal");
      ("geographic_scope", "Geographic Scope Limitation");
      ("strategic_mismatch", "Strategic Priority Mismatch");
      ("sustainability", "Sustainability Concerns") ].

(** The two label expressions of the memo template, in evaluation order:
      [reasonLabels[reasonCode]?.toLowerCase() || 'the selected reason']
      [reasonLabels[reasonCode] || 'Decline Reason'].
    On an inherited property the first calls [undefined] and throws. *)
Definition labels (reasonCode : string) : result (string * string) :=
  match get reasonLabels reasonCode with
  | Own label =>
      Ok (or_string (toLowerCase label) "the selected reason",
          or_string label "Decline Reason")
  | Missing => Ok ("the selected reason", "Decline Reason")
  | Inherited => Throw TypeError
  end.

Definition generateNYCTFormattedMemo (summary : ExtractedProposalData)
    (reasonCode specificReasons : string) : result string :=
  match labels reasonCode with
  | Ok (declined_for, rationale) =>
      Ok (interpolate (organizationName summary)
          +:+ (if truthy (foundingYear summary)
               then ", founded in " +:+ interpolate (foundingYear summary)
                    +:+ ","
               else EmptyString)
          +:+ " "
          +:+ or_default (organizationMission summary) "serves the community"
          +:+ ". This " +:+ interpolate (grantAmount summary)
          +:+ " request is to support "
          +:+ interpolate (projectDescription summary) +:+ ". "
          +:+ (if truthy (projectBudget summary)
               then "The project budget is "
                    +:+ interpolate (projectBudget summary)
               else EmptyString)
          +:+ (if truthy (currentBudget summary)
               then " and the organization's current operating budget is "
                    +:+ interpolate (currentBudget summary) +:+ "."
               else ".")
          +:+ "

I recommend this request be declined for " +:+ declined_for +:+ ". "
          +:+ specificReasons +:+ "

Rationale: " +:+ rationale)
  | Throw e => Throw e
  end.

Definition generateExternalLetter (_reasonCode : string) : string :=
  "Dear Applicant,

Thank you for your proposal submission to The New York Community Trust. We genuinely appreciate your organization's dedication to serving the community and the considerable time you invested in preparing your application.

After careful review by our program team and board, we have determined that we will not be able to provide funding for this request at this time. While we recognize the important work your organization does, this proposal does not align with our current funding priorities.

We encourage you to review our updated funding guidelines on our website and invite you to consider applying for future opportunities that may better align with your organization's mission and our strategic priorities.

Thank you again for considering The New York Community Trust as a potential partner in your work.

Best regards,
NYCT Program Team".

Definition generation_alert : string :=
  "Error generating decline memo. Please try again.".

Definition handleGenerateDecline (reasonCode specificReasons : string)
    (st : State) (b : Browser) : State * Browser :=
  match proposalSummary st with
  | None => (st, b)
  | Some summary =>
      let st := setIsGenerating true st in
      match generateNYCTFormattedMemo summary reasonCode specificReasons with
      | Ok internalMemo =>
          let externalLetter := generateExternalLetter reasonCode in
          let output' :=
            {| internal_rationale := internalMemo;
               external_reply := externalLetter;
               generation_time_ms := 2000 |} in
          (setIsGenerating false
             (setCurrentStage output
                (setGeneratedOutput (Some output') st)), b)
      | Throw _ =>
          (setIsGenerating false st, alert generation_alert b)
      end
  end.

(** ** The helpers the component declares besides *)

(** [kw], given in lower case, at the head of [s] in either case (the [i]
    flag of the pattern); what follows it. *)
Fixpoint after_keyword (kw s : string) : option string :=
  match kw, s with
  | EmptyString, _ => Some s
  | String k kw', String c s' =>
      if decide (lower_char c = k) then after_keyword kw' s' else None
  | String _ _, EmptyString => None
  end.

(** [(\d{4})] *)
Definition four_digits (s : string) : option string :=
  match s with
  | String a (String b (String c (String d _))) =>
      if digit a && digit b && digit c && digit d
      then Some (String a (String b (String c (String d EmptyString))))
      else None
  | _ => None
  end.

(** [/founded in (\d{4})|established (\d{4})|since (\d{4})/i] at the head
    of [s]: the group that took part. *)
Definition year_here (s : string) : option string :=
  match after_keyword "founded in " s ≫= four_digits with
  | Some y => Some y
  | None =>
      match after_keyword "established " s ≫= four_digits with
      | Some y => Some y
      | None => after_keyword "since " s ≫= four_digits
      end
  end.

Fixpoint yearMatch (text : string) : option string :=
  match year_here text with
  | Some y => Some y
  | None =>
      match text with
      | String _ text' => yearMatch text'
      | EmptyString => None
      end
  end.

Definition extractFoundingYear (text : string) : optional string :=
  match yearMatch text with
  | Some y => Value y
  | None => Undefined
  end.



(** ** The other handlers and the progress indicator *)

Definition setShowMetrics (v : bool) (st : State) : State :=
  {| currentStage := currentStage st; uploadedFile := uploadedFile st;
     proposalSummary := proposalSummary st;
     generatedOutput := generatedOutput st; isAnalyzing := isAnalyzing st;
     isGenerating := isGenerating st; showMetrics := v |}.

Definition handleProceedToDecline (st : State) : State :=
  setCurrentStage decline st.

Definition resetForm (st : State) : State :=
  setCurrentStage upload
    (setGeneratedOutput None
       (setProposalSummary None (setUploadedFile None st))).

Definition getProgressStep (st : State) : nat :=
  match currentStage st with
  | upload => 1
  | analysis => 2
  | decline => 3
  | output => 4
  end.

Record Step : Type := { id : nat; title : string; completed : bool }.

Definition is_stage (a b : Stage) : bool :=
  match a, b with
  | upload, upload | analysis, analysis | decline, decline
  | output, output => true
  | _, _ => false
  end.

Definition steps (st : State) : list Step :=
  [ {| id := 1; title := "Upload Proposal";
       completed := negb (is_stage (currentStage st) upload) |};
    {| id := 2; title := "Review Analysis";
       completed := is_stage (currentStage st) decline
                    || is_stage (currentStage st) output |};
    {| id := 3; title := "Add Context";
       completed := is_stage (currentStage st) output |};
    {| id := 4; title := "Generate Memo";
       completed := bool_decide (generatedOutput st ≠ None) |} ].

(** [Math.round((steps.filter(s => s.completed).length / steps.length) * 100)]:
    with four steps the quotient is a multiple of a quarter, so the rounding
    is the one of exact arithmetic. *)
Definition percentComplete (st : State) : nat :=
  let done := length (filter (λ s, completed s = true) (steps st)) in
  (200 * done + length (steps st)) / (2 * length (steps st)).

(** [progressStep <= 4 ? steps[progressStep - 1].title : 'Complete'] *)
Definition heading (st : State) : result string :=
  if getProgressStep st <=? 4
  then match steps st !! (getProgressStep st - 1) with
       | Some s => Ok (title s)
       | None => Throw TypeError
       end
  else Ok "Complete".

End App.

(* ------------------------------------------------------------------ *)
(** * The endpoints: [config.ts] *)

Module Config.

(** [import.meta.env], as far as the module reads it. *)
Record ImportMetaEnv : Type := {
  VITE_API_URL : optional string;
  VITE_ANALYZE_URL : optional string;
  VITE_GENERATE_URL : optional string;
}.

Definition API_URL (env : ImportMetaEnv) : string :=
  or_default (VITE_API_URL env) "http://localhost:8000".

Definition ANALYZE_URL (env : ImportMetaEnv) : string :=
  or_default (VITE_ANALYZE_URL env) (API_URL env +:+ "/analyze").

Definition GENERATE_URL (env : ImportMetaEnv) : string :=
  or_default (VITE_GENERATE_URL env) (API_URL env +:+ "/generate").

Definition exports (env : ImportMetaEnv) : App.Config :=
  {| App.ANALYZE_URL := ANALYZE_URL env;
     App.GENERATE_URL := GENERATE_URL env |}.

End Config.

(* ------------------------------------------------------------------ *)
(** * Derived forms of the handlers

    Past the first [req.json()] neither [try] block touches the request
    again, so each is a function of the environment and the parsed body. *)

Module Derived.

(** The Generate [try] block after the body has been parsed. *)
Definition generate_model_path (env : Env) (r : DeclineRequest)
  : result Response :=
  _ ← new_OpenAI (OPENAI_API_KEY env);
  p ← GenerateDecline.memoPrompt r;
  memoCompletion ← of_option APIError (chat_completions_create env p);
  memoChoice ← of_option TypeError (choices memoCompletion !! 0);
  letterCompletion ←
    of_option APIError
      (chat_completions_create env (GenerateDecline.letterPrompt r));
  letterChoice ← of_option TypeError (choices letterCompletion !! 0);
  mret (json_response
          (GenerateDecline.reply
             (json_of_content (content (message memoChoice)))
             (json_of_content (content (message letterChoice))) 3000)).

(** The reply of the Generate [catch] block once it has the body. *)
Definition generate_template_path (r : DeclineRequest) : result Response :=
  memo ← GenerateDecline.fallbackMemo r;
  mret (json_response
          (GenerateDecline.reply
             (JStr memo) (JStr (GenerateDecline.fallbackLetter r)) 1000)).

(** The Analyze [try] block after the body has been parsed. *)
Definition analyze_model_path (env : Env) (r : AnalyzeRequest)
  : result Response :=
  _ ← new_OpenAI (OPENAI_API_KEY env);
  completion ←
    of_option APIError
      (chat_completions_create env (AnalyzeProposal.extractionPrompt r));
  choice ← of_option TypeError (choices completion !! 0);
  extractedData ←
    of_option SyntaxError
      (JSON_parse env (default "null" (content (message choice))));
  mret (json_response (AnalyzeProposal.reply extractedData 2000)).

Definition of_result (r : result Response) : outcome :=
  match r with
  | Ok resp => Responded resp
  | Throw e => Rejected e
  end.

(** The reply of the Analyze [catch] block. *)
Definition analyze_basic : Response :=
  json_response (AnalyzeProposal.reply AnalyzeProposal.basic_extraction 1000).

End Derived.
Import Derived.

(* ------------------------------------------------------------------ *)
(** * Vocabulary of the specification and sample inputs *)

Module Spec.

Import DeclineInput.

(** The eight enumerated codes, and the label the selection list shows. *)
Definition codes : list string := value <$> DECLINE_REASONS.

Definition shown_label (code : string) : option string :=
  assoc code ((λ r, (value r, label r)) <$> DECLINE_REASONS).

(** The last line of a text. *)
Definition last_line (text : string) : option string :=
  last (split "010" text).

(** A declared field that is on the wire as a string, a list of strings or
    [null]. *)
Definition string_or_null (j : Json) : bool :=
  match j with
  | JStr _ | JNull => true
  | _ => false
  end.

Definition strings_or_null (j : Json) : bool :=
  match j with
  | JNull => true
  | JArr items =>
      forallb (λ i, match i with JStr _ => true | _ => false end) items
  | _ => false
  end.

Definition is_object (j : Json) : bool :=
  match j with
  | JObj _ => true
  | _ => false
  end.

(** Every declared field is a member, as a string or list or as [null]. *)
Definition every_field_present (summary : Json) : bool :=
  forallb (λ f, from_option string_or_null false (member f summary))
          string_fields
  && forallb (λ f, from_option strings_or_null false (member f summary))
             list_fields.

(** Every declared field is a string or list, [null], or left out. *)
Definition every_field_typed (summary : Json) : bool :=
  is_object summary
  && forallb (λ f, from_option string_or_null true (member f summary))
             string_fields
  && forallb (λ f, from_option strings_or_null true (member f summary))
             list_fields.

(** A summary with nothing in it. *)
Definition blank : ExtractedProposalData :=
  {| organizationName := Undefined; organizationMission := Undefined;
     foundingYear := Undefined; grantAmount := Undefined;
     projectDescription := Undefined; targetPopulation := Undefined;
     geographicScope := Undefined; currentBudget := Undefined;
     projectBudget := Undefined; peopleServed := Undefined;
     keyDeliverables := Undefined; timeline := Undefined |}.

(** The summary of the specification's Generate scenario. *)
Definition acme : ExtractedProposalData :=
  {| organizationName := Value "Acme Org"; organizationMission := Undefined;
     foundingYear := Undefined; grantAmount := Value "$20,000";
     projectDescription := Value "clothing drive";
     targetPopulation := Undefined; geographicScope := Undefined;
     currentBudget := Undefined; projectBudget := Undefined;
     peopleServed := Undefined; keyDeliverables := Undefined;
     timeline := Undefined |}.

Definition sustainability_request : DeclineRequest :=
  {| reason_code := "sustainability";
     specific_reasons := "No plan to sustain funding after grant period.";
     proposal_summary := acme |}.

(** The memo the templates give for it. *)
Definition sustainability_memo : string :=
  "Acme Org requests $20,000 to support clothing drive.

I recommend this request be declined for sustainability concerns. No plan to sustain funding after grant period.

Rationale: Sustainability Concerns".

Definition unknown_code_request : DeclineRequest :=
  {| reason_code := "not_a_real_code";
     specific_reasons := "No plan to sustain funding after grant period.";
     proposal_summary := acme |}.

Definition inherited_name_request : DeclineRequest :=
  {| reason_code := "constructor";
     specific_reasons := "No plan to sustain funding after grant period.";
     proposal_summary := acme |}.

Definition post {B} (b : B) : Request B :=
  {| method := "POST"; json := Some b |}.

(** The text of the specification's Analyze scenario. *)
Definition test_org_text : string :=
  "Organization: Test Org
Founded: 2020
Grant Request: $50,000".

Definition test_org_request : AnalyzeRequest :=
  {| text_content := test_org_text; filename := Value "test-proposal.txt" |}.

Definition test_org_file : App.UploadedFile :=
  {| App.proposal_hash := "abc123"; App.text_content := test_org_text;
     App.filename := "test-proposal.txt"; App.size := 58 |}.

(** No credential: whatever the model or the parser would have done. *)
Definition no_credential (model : Prompt → option ChatCompletion)
    (parse : string → option Json) : Env :=
  {| OPENAI_API_KEY := None;
     chat_completions_create := model;
     JSON_parse := parse |}.

Definition offline : Env := no_credential (λ _, None) (λ _, None).

Definition completion (text : option string) : ChatCompletion :=
  {| choices := [ {| message := {| content := text |} |} ] |}.

(** A model that writes the memo and fails on the letter. *)
Definition memo_only : Env :=
  {| OPENAI_API_KEY := Some "sk-test";
     chat_completions_create := λ p,
       match p with
       | MemoPrompt _ _ _ _ => Some (completion (Some "Memo by the model."))
       | _ => None
       end;
     JSON_parse := λ _, None |}.

(** A model that fails on the memo and would write the letter. *)
Definition letter_only : Env :=
  {| OPENAI_API_KEY := Some "sk-test";
     chat_completions_create := λ p,
       match p with
       | LetterPrompt _ => Some (completion (Some "Letter by the model."))
       | _ => None
       end;
     JSON_parse := λ _, None |}.

(** A model whose extraction gives the founding year as a number: its
    reply is the object with the one member [foundingYear], 2020. *)
Definition quoted (s : string) : string :=
  String "034" (s +:+ String "034" EmptyString).

Definition year_reply : string := "{ " +:+ quoted "foundingYear" +:+ ": 2020 }".

Definition year_as_number : Env :=
  {| OPENAI_API_KEY := Some "sk-test";
     chat_completions_create := λ _, Some (completion (Some year_reply));
     JSON_parse := λ text,
       if decide (text = year_reply)
       then Some (JObj [ ("foundingYear", JNum 2020) ])
       else None |}.

(** A member of the JSON body of a reply, if there is a reply. *)
Definition reply_member (k : string) (o : outcome) : option Json :=
  match o with
  | Responded resp =>
      match body resp with
      | JsonText j => member k j
      | Text _ => None
      end
  | Rejected _ => None
  end.

(** One of the two completions of a Generate invocation is refused. *)
Definition a_call_fails (env : Env) (r : DeclineRequest) : Prop :=
  (∃ p, GenerateDecline.memoPrompt r = Ok p
        ∧ chat_completions_create env p = None)
  ∨ chat_completions_create env (GenerateDecline.letterPrompt r) = None.

(** The reply of the Generate [catch] block. *)
Definition template_reply (r : DeclineRequest) (memo : string) : Response :=
  json_response
    (GenerateDecline.reply (JStr memo)
       (JStr (GenerateDecline.fallbackLetter r)) 1000).

(** The two closing paragraphs of a memo. *)
Definition recommendation (declined_for specific rationale : string)
  : string :=
  "

I recommend this request be declined for " +:+ declined_for +:+ ". "
  +:+ specific +:+ "

Rationale: " +:+ rationale.

Definition initial : App.State :=
  {| App.currentStage := App.upload; App.uploadedFile := None;
     App.proposalSummary := None; App.generatedOutput := None;
     App.isAnalyzing := false; App.isGenerating := false;
     App.showMetrics := false |}.

Definition reviewing (summary : ExtractedProposalData) : App.State :=
  App.setCurrentStage App.decline
    (App.setProposalSummary (Some summary) initial).

Definition quiet : App.Browser := {| App.fetches := []; App.alerts := [] |}.

Definition local_config : App.Config :=
  {| App.ANALYZE_URL := "http://localhost:8000/analyze";
     App.GENERATE_URL := "http://localhost:8000/generate" |}.

End Spec.
Import Spec.

(* ------------------------------------------------------------------ *)
(** * The wizard as a whole: what [App.tsx] puts on screen and wires up *)

Module Wizard.

(** The page between two events: the component's state, what the browser
    has been asked to do, and the calls of [handleFileUploaded] that have
    issued their fetch and await its outcome, each with the [file] it was
    given, oldest first. *)
Record Page : Type := {
  state : App.State;
  browser : App.Browser;
  awaiting : list App.UploadedFile;
}.

Definition first_render : Page :=
  {| state := initial; browser := quiet; awaiting := [] |}.

(** What can happen to the page: the user's actions, and the outcome of
    the fetch of one of the calls that await theirs. *)
Inductive event : Type :=
| FileUploaded (file : option App.UploadedFile)
| Settled (call : nat) (net : App.fetched)
| Proceed
| Regenerate
| Generate (selectedReason specificReasons : string)
| StartNew
| ToggleMetrics.

(** [handleFileUploaded] as far as [await fetch(ANALYZE_URL, ...)]: the
    three setters, and the request is out. *)
Definition handleFileUploaded_called (cfg : App.Config)
    (file : option App.UploadedFile) (p : Page) : Page :=
  match file with
  | None => p
  | Some file =>
      {| state :=
           App.setIsAnalyzing true
             (App.setCurrentStage App.analysis
                (App.setUploadedFile (Some file) (state p)));
         browser := App.fetch (App.ANALYZE_URL cfg) (browser p);
         awaiting := awaiting p ++ [file] |}
  end.

(** [handleFileUploaded] from the outcome of the fetch on: the rest of the
    [try] block, the [catch] block and [finally], on the state as it is by
    then.  Nothing is set between the two [await]s of the [try] block. *)
Definition handleFileUploaded_resumed (net : App.fetched)
    (file : App.UploadedFile) (st : App.State) (b : App.Browser)
  : App.State * App.Browser :=
  match App.analysed net file with
  | Ok summary =>
      (App.setIsAnalyzing false (App.setProposalSummary (Some summary) st), b)
  | Throw _ =>
      (App.setIsAnalyzing false
         (App.setProposalSummary (Some (App.basicSummary file)) st),
       App.alert App.analysis_alert b)
  end.

(** [if (uploadedFile) { handleFileUploaded(uploadedFile); }] *)
Definition handleRegenerateSummary (cfg : App.Config) (p : Page) : Page :=
  match App.uploadedFile (state p) with
  | Some file => handleFileUploaded_called cfg (Some file) p
  | None => p
  end.

(** A handler that runs to its end within the event. *)
Definition at_once (after : App.State * App.Browser) (p : Page) : Page :=
  {| state := after.1; browser := after.2; awaiting := awaiting p |}.

(** Whether the control behind an event is on screen and active: the upload
    box in the first stage, the two buttons of the review panel once a
    summary is there and is not being loaded, the form's button in the third
    stage while nothing is being generated (its reason is one of the
    options of the select), the reset button beside an output, the
    analytics button always.  A fetch can settle when its call awaits it. *)
Definition offered (p : Page) (ev : event) : bool :=
  let st := state p in
  match ev with
  | FileUploaded _ => App.is_stage (App.currentStage st) App.upload
  | Settled call _ => bool_decide (is_Some (awaiting p !! call))
  | Proceed | Regenerate =>
      App.is_stage (App.currentStage st) App.analysis
      && bool_decide (App.proposalSummary st ≠ None)
      && negb (App.isAnalyzing st)
  | Generate selectedReason _ =>
      App.is_stage (App.currentStage st) App.decline
      && bool_decide (App.proposalSummary st ≠ None)
      && negb (App.isGenerating st)
      && bool_decide (selectedReason ∈ DeclineInput.options)
  | StartNew =>
      App.is_stage (App.currentStage st) App.output
      && bool_decide (App.generatedOutput st ≠ None)
  | ToggleMetrics => true
  end.

(** The handler each control is wired to.  [handleFileUploaded] takes two
    events, its call and the outcome of its fetch, and the page is drawn
    and can be used in between; [handleRegenerateSummary] calls it with the
    stored file; [handleGenerateDecline] has no [await]. *)
Definition dispatch (cfg : App.Config) (ev : event) (p : Page) : Page :=
  match ev with
  | FileUploaded file => handleFileUploaded_called cfg file p
  | Settled call net =>
      match awaiting p !! call with
      | Some file =>
          let after :=
            handleFileUploaded_resumed net file (state p) (browser p) in
          {| state := after.1; browser := after.2;
             awaiting := delete call (awaiting p) |}
      | None => p
      end
  | Proceed => at_once (App.handleProceedToDecline (state p), browser p) p
  | Regenerate => handleRegenerateSummary cfg p
  | Generate selectedReason specificReasons =>
      match DeclineInput.handleGenerate selectedReason specificReasons with
      | inr (reasonCode, reasons) =>
          at_once
            (App.handleGenerateDecline reasonCode reasons
               (state p) (browser p)) p
      | inl _ => p
      end
  | StartNew => at_once (App.resetForm (state p), browser p) p
  | ToggleMetrics =>
      at_once
        (App.setShowMetrics (negb (App.showMetrics (state p))) (state p),
         browser p) p
  end.

(** The pages a session passes through, from the first render on. *)
Inductive visited (cfg : App.Config) : Page → Prop :=
| visited_first : visited cfg first_render
| visited_step p ev :
    visited cfg p → offered p ev = true → visited cfg (dispatch cfg ev p).

(** The states of those pages, with what the browser has seen by then. *)
Definition reachable (cfg : App.Config) (s : App.State * App.Browser)
  : Prop :=
  ∃ p, visited cfg p ∧ s = (state p, browser p).

(** A run of events from the first render; an event whose control is not
    on screen does nothing. *)
Definition react (cfg : App.Config) (p : Page) (ev : event) : Page :=
  if offered p ev then dispatch cfg ev p else p.

Definition run (cfg : App.Config) (evs : list event) : Page :=
  foldl (react cfg) first_render evs.

Definition session (cfg : App.Config) (evs : list event)
  : App.State * App.Browser :=
  (state (run cfg evs), browser (run cfg evs)).

(** What each stage has at hand when no call awaits its fetch. *)
Definition stage_data (st : App.State) : Prop :=
  match App.currentStage st with
  | App.upload =>
      App.uploadedFile st = None ∧ App.proposalSummary st = None
      ∧ App.generatedOutput st = None
  | App.analysis | App.decline =>
      is_Some (App.uploadedFile st) ∧ is_Some (App.proposalSummary st)
      ∧ App.generatedOutput st = None
  | App.output =>
      is_Some (App.uploadedFile st) ∧ is_Some (App.proposalSummary st)
      ∧ is_Some (App.generatedOutput st)
  end.

(** An output as the generate step leaves it for a listed reason. *)
Definition labelled_output (out : App.GeneratedOutput) : Prop :=
  App.external_reply out = App.generateExternalLetter EmptyString
  ∧ App.generation_time_ms out = 2000%Z
  ∧ ∃ r, r ∈ DeclineInput.DECLINE_REASONS
         ∧ last_line (App.internal_rationale out)
           = Some ("Rationale: " +:+ DeclineInput.label r).

(** What holds of every page of a session (see [visited_consistent]). *)
Definition consistent (cfg : App.Config) (p : Page) : Prop :=
  App.isGenerating (state p) = false
  ∧ match awaiting p with
    | [] => App.isAnalyzing (state p) = false ∧ stage_data (state p)
    | [file] =>
        App.isAnalyzing (state p) = true
        ∧ App.currentStage (state p) = App.analysis
        ∧ App.uploadedFile (state p) = Some file
        ∧ App.generatedOutput (state p) = None
    | _ => False
    end
  ∧ (∀ out, App.generatedOutput (state p) = Some out → labelled_output out)
  ∧ Forall (λ url, url = App.ANALYZE_URL cfg) (App.fetches (browser p))
  ∧ Forall (λ msg, msg = App.analysis_alert) (App.alerts (browser p))
  ∧ length (App.alerts (browser p)) + length (awaiting p)
    ≤ length (App.fetches (browser p)).

End Wizard.

(* ------------------------------------------------------------------ *)
(** * Shapes of text *)

Module Shapes.

(** Every character of [s] passes [test]. *)
Fixpoint all_chars (test : ascii → bool) (s : string) : bool :=
  match s with
  | EmptyString => true
  | String c s' => test c && all_chars test s'
  end.

Definition other_than (sep : ascii) (c : ascii) : bool :=
  negb (bool_decide (c = sep)).

(** The three keywords of the founding-year pattern. *)
Definition year_keywords : list string :=
  [ "founded in "; "established "; "since " ].

(** The characters of the class [\d]. *)
Definition decimal_digits : list ascii :=
  [ "0"; "1"; "2"; "3"; "4"; "5"; "6"; "7"; "8"; "9" ]%char.

Definition decimal (c : ascii) : bool := bool_decide (c ∈ decimal_digits).

(** The characters of the class [[\d,]]. *)
Definition amount_char (c : ascii) : bool :=
  bool_decide (c ∈ ","%char :: decimal_digits).

(** [s] begins with one of the keywords, in any mix of cases, and the four
    digits [y]. *)
Definition year_at (s y : string) : Prop :=
  ∃ K after,
    s = K +:+ y +:+ after
    ∧ toLowerCase K ∈ year_keywords
    ∧ String.length y = 4
    ∧ all_chars decimal y = true.


(** The labels the panel shows whatever the summary holds. *)
Definition fixed_labels : list string :=
  [ "Organization"; "Grant Amount Requested"; "Target Population";
    "Geographic Scope"; "Project Description" ].

End Shapes.
Import Shapes.

(* ------------------------------------------------------------------ *)
(** * More sample inputs *)

Module Samples.

Fixpoint copies (n : nat) (c : ascii) : string :=
  match n with
  | 0 => EmptyString
  | S n' => String c (copies n' c)
  end.

(** Two texts that part after their first 8000 characters. *)
Definition long_text (ending : string) : string :=
  copies 8000 "a" +:+ ending.

Definition long_request (ending : string) (name : optional string)
  : AnalyzeRequest :=
  {| text_content := long_text ending; filename := name |}.

(** A model that answers every prompt with the same text. *)
Definition talkative (text : string) : Env :=
  {| OPENAI_API_KEY := Some "sk-test";
     chat_completions_create := λ _, Some (completion (Some text));
     JSON_parse := λ _, Some (JStr text) |}.

(** A model whose completions carry no text. *)
Definition silent : Env :=
  {| OPENAI_API_KEY := Some "sk-test";
     chat_completions_create := λ _, Some (completion None);
     JSON_parse := λ _, None |}.

Definition sustainability_reason : DeclineInput.ReasonCode :=
  {| DeclineInput.value := "sustainability";
     DeclineInput.label := "Sustainability Concerns" |}.

(** A file has been handed over and its fetch is out. *)
Definition upload_in_flight : list Wizard.event :=
  [ Wizard.FileUploaded (Some test_org_file) ].

(** A whole session: upload while the backend is down, proceed, generate. *)
Definition offline_session : list Wizard.event :=
  [ Wizard.FileUploaded (Some test_org_file);
    Wizard.Settled 0 App.NetworkError;
    Wizard.Proceed;
    Wizard.Generate "sustainability"
      "No plan to sustain funding after grant period." ].

Definition no_env : Config.ImportMetaEnv :=
  {| Config.VITE_API_URL := Undefined; Config.VITE_ANALYZE_URL := Undefined;
     Config.VITE_GENERATE_URL := Undefined |}.

End Samples.
Import Samples.

(* ------------------------------------------------------------------ *)
(** * The handlers, step by step *)

Section Unfolding.

Lemma generate_attempt_unfold env (req : Request DeclineRequest) n :
  GenerateDecline.attempt env req n =
  match n with
  | 0 => (Throw TypeError, 0)
  | S n' =>
      match json req with
      | Some r => (generate_model_path env r, n')
      | None => (Throw SyntaxError, n')
      end
  end.
Proof.
  unfold GenerateDecline.attempt, generate_model_path.
  destruct n as [|n']; [reflexivity|].
  unfold mbind at 1, Eff_bind, req_json.
  destruct (json req) as [r|]; [|reflexivity].
  unfold mbind, Eff_bind, result_bind, lift, create, first_content,
    mret, Eff_ret, result_ret, mthrow, Eff_throw, of_option.
  destruct (new_OpenAI _); [|reflexivity].
  destruct (GenerateDecline.memoPrompt r) as [p|]; [|reflexivity].
  destruct (chat_completions_create env p) as [c1|]; [|reflexivity].
  destruct (choices c1 !! 0); [|reflexivity].
  destruct (chat_completions_create env _) as [c2|]; [|reflexivity].
  destruct (choices c2 !! 0); reflexivity.
Qed.

Lemma generate_fallback_unfold (req : Request DeclineRequest) error n :
  GenerateDecline.fallback req error n =
  match n with
  | 0 => (Throw TypeError, 0)
  | S n' =>
      match json req with
      | Some r => (generate_template_path r, n')
      | None => (Throw SyntaxError, n')
      end
  end.
Proof.
  unfold GenerateDecline.fallback, generate_template_path.
  destruct n as [|n']; [reflexivity|].
  unfold mbind at 1, Eff_bind, req_json.
  destruct (json req) as [r|]; [|reflexivity].
  unfold mbind, Eff_bind, result_bind, lift, mret, Eff_ret, result_ret.
  destruct (GenerateDecline.fallbackMemo r); reflexivity.
Qed.

End Unfolding.

Section Outcomes.

Lemma analyze_attempt_unfold env (req : Request AnalyzeRequest) n :
  AnalyzeProposal.attempt env req n =
  match n with
  | 0 => (Throw TypeError, 0)
  | S n' =>
      match json req with
      | Some r => (analyze_model_path env r, n')
      | None => (Throw SyntaxError, n')
      end
  end.
Proof.
  unfold AnalyzeProposal.attempt, analyze_model_path.
  destruct n as [|n']; [reflexivity|].
  unfold mbind at 1, Eff_bind, req_json.
  destruct (json req) as [r|]; [|reflexivity].
  unfold mbind, Eff_bind, result_bind, lift, create, first_content,
    AnalyzeProposal.parse, mret, Eff_ret, result_ret, mthrow, Eff_throw,
    of_option.
  destruct (new_OpenAI _); [|reflexivity].
  destruct (chat_completions_create env _) as [c|]; [|reflexivity].
  destruct (choices c !! 0); [|reflexivity].
  destruct (JSON_parse env _); reflexivity.
Qed.

(** Every way a Generate invocation can end. *)
Lemma generate_run env (req : Request DeclineRequest) n :
  method req ≠ "OPTIONS" →
  run (GenerateDecline.handler env req) n =
  match n with
  | 0 => Rejected TypeError
  | S n' =>
      match json req with
      | Some r =>
          match generate_model_path env r with
          | Ok resp => Responded resp
          | Throw _ =>
              match n' with
              | 0 => Rejected TypeError
              | S _ => of_result (generate_template_path r)
              end
          end
      | None => Rejected (match n' with 0 => TypeError | S _ => SyntaxError end)
      end
  end.
Proof.
  intros Hm. unfold run, GenerateDecline.handler, try_catch.
  destruct (decide (method req = "OPTIONS")) as [|_]; [done|].
  rewrite generate_attempt_unfold.
  destruct n as [|n']; [reflexivity|].
  destruct (json req) as [r|] eqn:Hr.
  - destruct (generate_model_path env r) as [resp|e]; [reflexivity|].
    rewrite generate_fallback_unfold, Hr.
    destruct n' as [|n'']; [reflexivity|].
    destruct (generate_template_path r); reflexivity.
  - rewrite generate_fallback_unfold, Hr.
    destruct n' as [|n'']; reflexivity.
Qed.

(** Every way an Analyze invocation can end. *)
Lemma analyze_run env (req : Request AnalyzeRequest) n :
  method req ≠ "OPTIONS" →
  run (AnalyzeProposal.handler env req) n =
  Responded
    match n with
    | 0 => analyze_basic
    | S _ =>
        match json req with
        | Some r =>
            match analyze_model_path env r with
            | Ok resp => resp
            | Throw _ => analyze_basic
            end
        | None => analyze_basic
        end
    end.
Proof.
  intros Hm. unfold run, AnalyzeProposal.handler, try_catch.
  destruct (decide (method req = "OPTIONS")) as [|_]; [done|].
  rewrite analyze_attempt_unfold.
  destruct n as [|n']; [reflexivity|].
  destruct (json req) as [r|]; [|reflexivity].
  destruct (analyze_model_path env r); reflexivity.
Qed.

Lemma generate_preflight env (req : Request DeclineRequest) n :
  method req = "OPTIONS" →
  run (GenerateDecline.handler env req) n = Responded preflight.
Proof.
  intros Hm. unfold run, GenerateDecline.handler.
  by destruct (decide (method req = "OPTIONS")).
Qed.

Lemma analyze_preflight env (req : Request AnalyzeRequest) n :
  method req = "OPTIONS" →
  run (AnalyzeProposal.handler env req) n = Responded preflight.
Proof.
  intros Hm. unfold run, AnalyzeProposal.handler.
  by destruct (decide (method req = "OPTIONS")).
Qed.

(** Without a credential the model path of either handler throws. *)
Lemma generate_no_credential model parse r :
  generate_model_path (no_credential model parse) r = Throw OpenAIError.
Proof. reflexivity. Qed.

Lemma analyze_no_credential model parse r :
  analyze_model_path (no_credential model parse) r = Throw OpenAIError.
Proof. reflexivity. Qed.

(** A table built from a list answers like the list read front to back. *)
Lemma lookup_list_to_map_assoc (l : list (string * string)) k :
  (list_to_map l : gmap string string) !! k = assoc k l.
Proof.
  induction l as [|[k' v] l IH]; simpl; [apply lookup_empty|].
  destruct (decide (k = k')) as [->|Hne].
  - apply lookup_insert_eq.
  - rewrite lookup_insert_ne by congruence. exact IH.
Qed.

Lemma assoc_None {A} (l : list (string * A)) k :
  k ∉ l.*1 → assoc k l = None.
Proof.
  induction l as [|[k' v] l IH]; simpl; [done|].
  intros Hk. apply not_elem_of_cons in Hk as [Hne Hk].
  destruct (decide (k = k')); [done|]. by apply IH.
Qed.

(** An unlisted code that is no inherited property name is [Missing] from
    both tables. *)
Lemma get_unlisted code :
  code ∉ codes → code ∉ Object_prototype →
  get GenerateDecline.reasonDescriptions code = Missing
  ∧ get App.reasonLabels code = Missing.
Proof.
  intros Hc Hp. unfold get, GenerateDecline.reasonDescriptions,
    App.reasonLabels.
  rewrite !lookup_list_to_map_assoc.
  rewrite !assoc_None by exact Hc.
  by destruct (decide (code ∈ Object_prototype)).
Qed.

End Outcomes.

(* ------------------------------------------------------------------ *)
(** * The decline-reason enumeration *)

(** C8.  The backend table [reasonDescriptions], the frontend table
    [reasonLabels] and the selection list [DECLINE_REASONS] hold the same
    eight codes with the same labels, character for character: the tables are
    equal, every lookup in either answers what the selection list shows, and
    for each listed code both memo templates resolve to the shown label (and
    its lower-case form).  The tables are constants: no handler has them in
    its store, so none can change them. *)
Theorem reason_labels_agree :
  GenerateDecline.reasonDescriptions = App.reasonLabels
  ∧ length codes = 8
  ∧ NoDup codes
  ∧ (∀ code,
       GenerateDecline.reasonDescriptions !! code = shown_label code
       ∧ App.reasonLabels !! code = shown_label code)
  ∧ Forall (λ r,
       GenerateDecline.labels (DeclineInput.value r)
         = Ok (toLowerCase (DeclineInput.label r), DeclineInput.label r)
       ∧ App.labels (DeclineInput.value r)
         = Ok (toLowerCase (DeclineInput.label r), DeclineInput.label r))
      DeclineInput.DECLINE_REASONS.
Proof.
  split; [reflexivity|].
  split; [reflexivity|].
  split; [apply (bool_decide_unpack _); vm_compute; exact I|].
  split.
  - intros code. unfold GenerateDecline.reasonDescriptions, App.reasonLabels.
    rewrite !lookup_list_to_map_assoc. split; reflexivity.
  - unfold DeclineInput.DECLINE_REASONS.
    repeat (apply Forall_cons; split; [split; vm_compute; reflexivity|]).
    constructor.
Qed.

(* ------------------------------------------------------------------ *)
(** * The Generate operation *)

(** C5.  The scenario request (code [sustainability], the Acme summary)
    with no credential configured.  Sent as a request of the Fetch standard,
    whose body can be read once, it gets no reply: [new OpenAI] throws after
    the body has been consumed, the [catch] block starts with a second
    [req.json()], and the invocation ends in that TypeError, so there is no
    internal rationale at all.  The memo the [catch] block goes on to build
    is [sustainability_memo], whose last line is
    [Rationale: Sustainability Concerns]; it is the [internal_rationale] of
    the reply only when the body can be read twice or more. *)
Theorem sustainability_fallback_is_lost :
  (∀ model parse,
     run (GenerateDecline.handler (no_credential model parse)
            (post sustainability_request)) 1
     = Rejected TypeError
     ∧ reply_member "internal_rationale"
         (run (GenerateDecline.handler (no_credential model parse)
                 (post sustainability_request)) 1)
       = None)
  ∧ GenerateDecline.fallbackMemo sustainability_request
    = Ok sustainability_memo
  ∧ last_line sustainability_memo = Some "Rationale: Sustainability Concerns"
  ∧ endsWith "
Rationale: Sustainability Concerns" sustainability_memo = true
  ∧ ∀ model parse extra,
      run (GenerateDecline.handler (no_credential model parse)
             (post sustainability_request)) (2 + extra)
      = Responded (template_reply sustainability_request sustainability_memo)
      ∧ reply_member "internal_rationale"
          (run (GenerateDecline.handler (no_credential model parse)
                  (post sustainability_request)) (2 + extra))
        = Some (JStr sustainability_memo).
Proof.
  split.
  { intros model parse. rewrite generate_run by done. split; reflexivity. }
  split; [vm_compute; reflexivity|].
  split; [vm_compute; reflexivity|].
  split; [vm_compute; reflexivity|].
  intros model parse extra.
  rewrite generate_run by done. split; reflexivity.
Qed.

(** C4.  When the [try] block has parsed the body and throws afterwards, the
    [catch] block runs with one read fewer and starts by parsing the body
    again.  On a body that can be read once that second parse throws and the
    invocation ends without a reply; a reply, when there is one, is the
    fallback memo and letter, and the body could be read twice. *)
Theorem fallback_needs_second_read env (req : Request DeclineRequest) r e n :
  method req ≠ "OPTIONS" →
  json req = Some r →
  GenerateDecline.attempt env req (S n) = (Throw e, n) →
  GenerateDecline.handler env req (S n) = GenerateDecline.fallback req e n
  ∧ GenerateDecline.fallback req e n
    = (mbind (λ _, lift (generate_template_path r)) (req_json req)) n
  ∧ (n = 0 → run (GenerateDecline.handler env req) (S n) = Rejected TypeError)
  ∧ (1 ≤ n →
     run (GenerateDecline.handler env req) (S n)
     = of_result (generate_template_path r))
  ∧ (∀ resp,
       run (GenerateDecline.handler env req) (S n) = Responded resp →
       1 ≤ n
       ∧ ∃ memo,
           GenerateDecline.fallbackMemo r = Ok memo
           ∧ resp = template_reply r memo).
Proof.
  intros Hm Hr Ha.
  assert (Hpath : generate_model_path env r = Throw e).
  { rewrite generate_attempt_unfold, Hr in Ha. congruence. }
  assert (Hrun := generate_run env req (S n) Hm).
  rewrite Hr, Hpath in Hrun.
  split.
  { unfold GenerateDecline.handler, try_catch.
    destruct (decide (method req = "OPTIONS")); [done|]. by rewrite Ha. }
  split.
  { rewrite generate_fallback_unfold, Hr.
    unfold mbind, Eff_bind, req_json, lift. rewrite Hr.
    by destruct n. }
  split; [intros ->; exact Hrun|].
  split.
  { intros Hn. destruct n as [|n']; [lia|]. exact Hrun. }
  intros resp Hresp. rewrite Hrun in Hresp.
  destruct n as [|n']; [discriminate|].
  split; [lia|].
  unfold generate_template_path, mbind, result_bind in Hresp.
  destruct (GenerateDecline.fallbackMemo r) as [memo|]; [|discriminate].
  exists memo. split; [reflexivity|].
  unfold template_reply. simpl in Hresp. congruence.
Qed.

Lemma fallback_needs_second_read_witness :
  GenerateDecline.attempt offline (post sustainability_request) 1
  = (Throw OpenAIError, 0)
  ∧ run (GenerateDecline.handler offline (post sustainability_request)) 1
    = Rejected TypeError.
Proof.
  split; [reflexivity|].
  apply (proj1 (proj2 (proj2
    (fallback_needs_second_read offline (post sustainability_request)
       sustainability_request OpenAIError 0
       ltac:(discriminate) eq_refl eq_refl)))).
  reflexivity.
Defined.

(** What a model-written reply is made of. *)
Lemma generate_model_path_Ok env r resp :
  generate_model_path env r = Ok resp →
  ∃ p memoCompletion memoChoice letterCompletion letterChoice,
    is_Some (OPENAI_API_KEY env)
    ∧ GenerateDecline.memoPrompt r = Ok p
    ∧ chat_completions_create env p = Some memoCompletion
    ∧ choices memoCompletion !! 0 = Some memoChoice
    ∧ chat_completions_create env (GenerateDecline.letterPrompt r)
      = Some letterCompletion
    ∧ choices letterCompletion !! 0 = Some letterChoice
    ∧ resp = json_response
               (GenerateDecline.reply
                  (json_of_content (content (message memoChoice)))
                  (json_of_content (content (message letterChoice))) 3000).
Proof.
  unfold generate_model_path, mbind, result_bind, new_OpenAI, of_option.
  destruct (OPENAI_API_KEY env) as [k|]; [|discriminate].
  destruct (GenerateDecline.memoPrompt r) as [p|]; [|discriminate].
  destruct (chat_completions_create env p) as [c1|] eqn:H1; [|discriminate].
  destruct (choices c1 !! 0) as [ch1|] eqn:H2; [|discriminate].
  destruct (chat_completions_create env (GenerateDecline.letterPrompt r))
    as [c2|] eqn:H3; [|discriminate].
  destruct (choices c2 !! 0) as [ch2|] eqn:H4; [|discriminate].
  intros [= <-]. exists p, c1, ch1, c2, ch2. eauto 10.
Qed.

(** A reply of the Generate handler is written by the model as a whole or by
    the templates as a whole. *)
Lemma generate_replies env (req : Request DeclineRequest) n resp :
  method req ≠ "OPTIONS" →
  run (GenerateDecline.handler env req) n = Responded resp →
  ∃ r, json req = Some r ∧ 1 ≤ n
    ∧ (generate_model_path env r = Ok resp
       ∨ (∃ e memo, generate_model_path env r = Throw e ∧ 2 ≤ n
            ∧ GenerateDecline.fallbackMemo r = Ok memo
            ∧ resp = template_reply r memo)).
Proof.
  intros Hm. rewrite generate_run by exact Hm.
  destruct n as [|n']; [discriminate|].
  destruct (json req) as [r|]; [|intros ?; discriminate].
  intros Hresp. exists r. split; [reflexivity|]. split; [lia|].
  destruct (generate_model_path env r) as [resp'|e]; simpl in Hresp.
  - left. congruence.
  - right. destruct n' as [|n'']; [discriminate|].
    unfold generate_template_path, mbind, result_bind in Hresp.
    destruct (GenerateDecline.fallbackMemo r) as [memo|]; [|discriminate].
    exists e, memo. unfold template_reply. simpl in Hresp.
    repeat split; try lia. congruence.
Qed.

(** C1 (as amended).  When one of the two model calls fails, a reply, if
    there is one, carries the fallback memo and the fallback letter: nothing
    the model wrote survives. *)
Theorem one_failure_replaces_both env (req : Request DeclineRequest) r n resp :
  method req ≠ "OPTIONS" →
  json req = Some r →
  a_call_fails env r →
  run (GenerateDecline.handler env req) n = Responded resp →
  ∃ memo,
    GenerateDecline.fallbackMemo r = Ok memo ∧ resp = template_reply r memo.
Proof.
  intros Hm Hr Hfail Hrun.
  destruct (generate_replies env req n resp Hm Hrun)
    as (r' & Hr' & _ & [Hok | (e & memo & _ & _ & Hmemo & ->)]).
  - exfalso. assert (r' = r) as -> by congruence.
    destruct (generate_model_path_Ok env r resp Hok)
      as (p & c1 & ch1 & c2 & ch2 & _ & Hp & Hc1 & _ & Hc2 & _).
    destruct Hfail as [(p' & Hp' & Hnone) | Hnone]; congruence.
  - assert (r' = r) as -> by congruence. eauto.
Qed.

Lemma one_failure_replaces_both_witness :
  a_call_fails memo_only sustainability_request
  ∧ run (GenerateDecline.handler memo_only (post sustainability_request)) 2
    = Responded (template_reply sustainability_request sustainability_memo)
  ∧ ∃ memo,
      GenerateDecline.fallbackMemo sustainability_request = Ok memo
      ∧ template_reply sustainability_request sustainability_memo
        = template_reply sustainability_request memo.
Proof.
  assert (Hfail : a_call_fails memo_only sustainability_request)
    by (right; reflexivity).
  assert (Hrun :
    run (GenerateDecline.handler memo_only (post sustainability_request)) 2
    = Responded (template_reply sustainability_request sustainability_memo))
    by reflexivity.
  split; [exact Hfail|]. split; [exact Hrun|].
  exact (one_failure_replaces_both memo_only (post sustainability_request)
           sustainability_request 2 _ ltac:(discriminate) eq_refl Hfail Hrun).
Defined.

(** C1 fails as stated: the model writes the memo, the letter call is
    refused, and the reply (on a body that can be read twice) carries the
    template memo, not the model's; on a body that can be read once there is
    no reply. *)
Lemma one_failure_replaces_both_counterexample :
  (p ← GenerateDecline.memoPrompt sustainability_request;
   of_option APIError (chat_completions_create memo_only p))
  = Ok (completion (Some "Memo by the model."))
  ∧ chat_completions_create memo_only
      (GenerateDecline.letterPrompt sustainability_request) = None
  ∧ reply_member "internal_rationale"
      (run (GenerateDecline.handler memo_only (post sustainability_request)) 2)
    = Some (JStr sustainability_memo)
  ∧ reply_member "internal_rationale"
      (run (GenerateDecline.handler memo_only (post sustainability_request)) 2)
    ≠ Some (JStr "Memo by the model.")
  ∧ run (GenerateDecline.handler memo_only (post sustainability_request)) 1
    = Rejected TypeError.
Proof.
  split; [reflexivity|]. split; [reflexivity|].
  split; [vm_compute; reflexivity|].
  split; [vm_compute; discriminate|].
  reflexivity.
Qed.

Lemma append_assoc (s1 s2 s3 : string) :
  s1 +:+ s2 +:+ s3 = (s1 +:+ s2) +:+ s3.
Proof.
  induction s1 as [|a s1 IH]; [reflexivity|].
  change (String a (s1 +:+ s2 +:+ s3) = String a ((s1 +:+ s2) +:+ s3)).
  by rewrite IH.
Qed.

(** The label expressions throw on a property name that every object
    inherits, in the prompt and in the fallback memo alike: such a request
    ends without a reply however often its body can be read. *)
Lemma inherited_name_throws :
  GenerateDecline.labels "constructor" = Throw TypeError
  ∧ App.labels "toString" = Throw TypeError
  ∧ ∀ env n,
      run (GenerateDecline.handler env (post inherited_name_request)) n
      = Rejected TypeError.
Proof.
  split; [reflexivity|]. split; [reflexivity|].
  intros env n. rewrite generate_run by done.
  destruct n as [|[|n]]; [reflexivity| |];
    unfold post, json, generate_model_path, mbind, result_bind;
    by destruct (new_OpenAI _).
Qed.

(** C6 (as amended).  For a code that is none of the eight (and no property
    name inherited by every object) label resolution does not throw.  The
    backend puts [the specified reason] into the recommendation sentence and
    [Decline Reason] into the closing line, in the prompt and in the fallback
    memo; the wizard's template puts [the selected reason] and
    [Decline Reason]. *)
Theorem unlisted_code_labels (r : DeclineRequest) (summary : ExtractedProposalData) :
  reason_code r ∉ codes →
  reason_code r ∉ Object_prototype →
  GenerateDecline.labels (reason_code r)
    = Ok ("the specified reason", "Decline Reason")
  ∧ GenerateDecline.memoPrompt r
    = Ok (MemoPrompt "the specified reason" (specific_reasons r)
            "Decline Reason" (proposal_summary r))
  ∧ (∃ opening,
       GenerateDecline.fallbackMemo r
       = Ok (opening
             +:+ recommendation "the specified reason" (specific_reasons r)
                   "Decline Reason"))
  ∧ App.labels (reason_code r) = Ok ("the selected reason", "Decline Reason")
  ∧ (∃ opening,
       App.generateNYCTFormattedMemo summary (reason_code r)
         (specific_reasons r)
       = Ok (opening
             +:+ recommendation "the selected reason" (specific_reasons r)
                   "Decline Reason")).
Proof.
  intros Hc Hp. destruct (get_unlisted _ Hc Hp) as [Hb Hf].
  assert (HB : GenerateDecline.labels (reason_code r)
               = Ok ("the specified reason", "Decline Reason"))
    by (unfold GenerateDecline.labels; by rewrite Hb).
  assert (HF : App.labels (reason_code r)
               = Ok ("the selected reason", "Decline Reason"))
    by (unfold App.labels; by rewrite Hf).
  split; [exact HB|].
  split; [unfold GenerateDecline.memoPrompt; by rewrite HB|].
  split.
  { unfold GenerateDecline.fallbackMemo. rewrite HB.
    exists (or_default (organizationName (proposal_summary r))
              "The organization"
            +:+ " requests "
            +:+ or_default (grantAmount (proposal_summary r)) "funding"
            +:+ " to support "
            +:+ or_default (projectDescription (proposal_summary r))
                  "their project"
            +:+ ".").
    unfold recommendation. rewrite <- !append_assoc. reflexivity. }
  split; [exact HF|].
  unfold App.generateNYCTFormattedMemo. rewrite HF.
  exists (interpolate (organizationName summary)
          +:+ (if truthy (foundingYear summary)
               then ", founded in " +:+ interpolate (foundingYear summary)
                    +:+ ","
               else EmptyString)
          +:+ " "
          +:+ or_default (organizationMission summary) "serves the community"
          +:+ ". This " +:+ interpolate (grantAmount summary)
          +:+ " request is to support "
          +:+ interpolate (projectDescription summary) +:+ ". "
          +:+ (if truthy (projectBudget summary)
               then "The project budget is "
                    +:+ interpolate (projectBudget summary)
               else EmptyString)
          +:+ (if truthy (currentBudget summary)
               then " and the organization's current operating budget is "
                    +:+ interpolate (currentBudget summary) +:+ "."
               else ".")).
  unfold recommendation. rewrite <- !append_assoc. reflexivity.
Qed.

Lemma unlisted_code_labels_witness :
  ("not_a_real_code" ∉ codes)
  ∧ ("not_a_real_code" ∉ Object_prototype)
  ∧ GenerateDecline.labels "not_a_real_code"
    = Ok ("the specified reason", "Decline Reason").
Proof.
  assert (Hc : "not_a_real_code" ∉ codes)
    by (apply (bool_decide_unpack _); vm_compute; exact I).
  assert (Hp : "not_a_real_code" ∉ Object_prototype)
    by (apply (bool_decide_unpack _); vm_compute; exact I).
  split; [exact Hc|]. split; [exact Hp|].
  exact (proj1 (unlisted_code_labels unknown_code_request acme Hc Hp)).
Defined.

(** C6 fails as stated: for the unlisted code [not_a_real_code] the closing
    line of the backend's fallback memo reads [Rationale: Decline Reason],
    not the generic phrase, and the memo of the wizard's generate step does
    not contain [the specified reason] at all. *)
Lemma unlisted_code_labels_counterexample :
  ("not_a_real_code" ∉ codes)
  ∧ (∃ memo,
       GenerateDecline.fallbackMemo unknown_code_request = Ok memo
       ∧ last_line memo = Some "Rationale: Decline Reason"
       ∧ last_line memo ≠ Some "Rationale: the specified reason")
  ∧ (∃ memo,
       App.generateNYCTFormattedMemo acme "not_a_real_code"
         "No plan to sustain funding after grant period." = Ok memo
       ∧ includes "the specified reason" memo = false
       ∧ includes "the selected reason" memo = true).
Proof.
  split; [apply (bool_decide_unpack _); vm_compute; exact I|].
  split.
  - eexists. split; [vm_compute; reflexivity|].
    split; [vm_compute; reflexivity|vm_compute; discriminate].
  - eexists. split; [vm_compute; reflexivity|].
    split; vm_compute; reflexivity.
Qed.

(** Whatever either handler replies has status 200 and, past the preflight,
    the JSON content type. *)
Lemma replies_have_status_200 :
  (∀ env (req : Request DeclineRequest) n resp,
     run (GenerateDecline.handler env req) n = Responded resp →
     status resp = 200
     ∧ (method req ≠ "OPTIONS" →
        headers resp !! "Content-Type" = Some "application/json"
        ∧ ∃ j, body resp = JsonText j))
  ∧ (∀ env (req : Request AnalyzeRequest) n,
       ∃ resp,
         run (AnalyzeProposal.handler env req) n = Responded resp
         ∧ status resp = 200
         ∧ (method req ≠ "OPTIONS" →
            headers resp !! "Content-Type" = Some "application/json"
            ∧ ∃ j, body resp = JsonText j)).
Proof.
  split.
  - intros env req n resp Hrun.
    destruct (decide (method req = "OPTIONS")) as [Hm|Hm].
    { rewrite generate_preflight in Hrun by exact Hm.
      injection Hrun as <-. split; [reflexivity|done]. }
    destruct (generate_replies env req n resp Hm Hrun)
      as (r & _ & _ & [Hok | (e & memo & _ & _ & _ & ->)]).
    + destruct (generate_model_path_Ok env r resp Hok)
        as (? & ? & ? & ? & ? & _ & _ & _ & _ & _ & _ & ->).
      split; [reflexivity|]. intros _. split; [reflexivity|eauto].
    + split; [reflexivity|]. intros _. split; [reflexivity|].
      unfold template_reply. simpl. eauto.
  - intros env req n.
    destruct (decide (method req = "OPTIONS")) as [Hm|Hm].
    { exists preflight. rewrite analyze_preflight by exact Hm.
      split; [reflexivity|]. split; [reflexivity|done]. }
    rewrite analyze_run by exact Hm. eexists. split; [reflexivity|].
    destruct n as [|n']; [by eauto|].
    destruct (json req) as [r|]; [|by eauto].
    unfold analyze_model_path, mbind, result_bind, of_option.
    destruct (new_OpenAI _); [|by eauto].
    destruct (chat_completions_create env _); [|by eauto].
    destruct (choices _ !! 0); [|by eauto].
    destruct (JSON_parse env _); by eauto.
Qed.

(** C7 at the failing inputs.  A POST whose body parses and can be read once,
    as the Fetch standard has it: with no credential, and with a model that
    refuses the second call, the Generate handler ends without any reply,
    where the Analyze handler answers 200 with its fallback. *)
Theorem generate_fallback_gives_no_reply :
  method (post sustainability_request) ≠ "OPTIONS"
  ∧ run (GenerateDecline.handler offline (post sustainability_request)) 1
    = Rejected TypeError
  ∧ run (GenerateDecline.handler memo_only (post sustainability_request)) 1
    = Rejected TypeError
  ∧ run (AnalyzeProposal.handler offline (post test_org_request)) 1
    = Responded analyze_basic
  ∧ status analyze_basic = 200.
Proof. repeat split; try reflexivity. discriminate. Qed.

(** C9.  With no credential the reply of Analyze does not depend on what the
    model or the parser would have done, nor on how often the body can be
    read; two Generate invocations on the same request that both reply give
    the same reply, and with the same request and the same number of reads
    they end the same way. *)
Theorem fallback_is_deterministic :
  (∀ model1 parse1 model2 parse2 (req : Request AnalyzeRequest) n1 n2,
     run (AnalyzeProposal.handler (no_credential model1 parse1) req) n1
     = run (AnalyzeProposal.handler (no_credential model2 parse2) req) n2)
  ∧ (∀ model1 parse1 model2 parse2 (req : Request DeclineRequest) n,
       run (GenerateDecline.handler (no_credential model1 parse1) req) n
       = run (GenerateDecline.handler (no_credential model2 parse2) req) n)
  ∧ (∀ model1 parse1 model2 parse2 (req : Request DeclineRequest)
       n1 n2 resp1 resp2,
       run (GenerateDecline.handler (no_credential model1 parse1) req) n1
       = Responded resp1 →
       run (GenerateDecline.handler (no_credential model2 parse2) req) n2
       = Responded resp2 →
       resp1 = resp2).
Proof.
  split; [|split].
  - intros model1 parse1 model2 parse2 req n1 n2.
    destruct (decide (method req = "OPTIONS")) as [Hm|Hm].
    { by rewrite !analyze_preflight. }
    rewrite !analyze_run by exact Hm.
    destruct n1, n2, (json req); reflexivity.
  - intros model1 parse1 model2 parse2 req n.
    destruct (decide (method req = "OPTIONS")) as [Hm|Hm].
    { by rewrite !generate_preflight. }
    rewrite !generate_run by exact Hm.
    destruct n as [|n']; [reflexivity|].
    destruct (json req); reflexivity.
  - intros model1 parse1 model2 parse2 req n1 n2 resp1 resp2 H1 H2.
    destruct (decide (method req = "OPTIONS")) as [Hm|Hm].
    { rewrite generate_preflight in H1, H2 by exact Hm. congruence. }
    destruct (generate_replies _ req n1 resp1 Hm H1)
      as (r1 & Hr1 & _ & [Hok | (e1 & memo1 & _ & _ & Hmemo1 & ->)]);
      [by rewrite generate_no_credential in Hok|].
    destruct (generate_replies _ req n2 resp2 Hm H2)
      as (r2 & Hr2 & _ & [Hok | (e2 & memo2 & _ & _ & Hmemo2 & ->)]);
      [by rewrite generate_no_credential in Hok|].
    congruence.
Qed.

Lemma fallback_is_deterministic_witness :
  run (GenerateDecline.handler offline (post sustainability_request)) 2
  = Responded (template_reply sustainability_request sustainability_memo)
  ∧ run (GenerateDecline.handler
           (no_credential (λ _, Some (completion (Some "unused")))
                          (λ _, Some JNull))
           (post sustainability_request)) 3
    = Responded
        (json_response
           (GenerateDecline.reply (JStr sustainability_memo)
              (JStr (GenerateDecline.fallbackLetter sustainability_request))
              1000))
  ∧ template_reply sustainability_request sustainability_memo
    = json_response
        (GenerateDecline.reply (JStr sustainability_memo)
           (JStr (GenerateDecline.fallbackLetter sustainability_request))
           1000).
Proof.
  split; [reflexivity|]. split; [reflexivity|].
  apply (proj2 (proj2 fallback_is_deterministic)
           (λ _, None) (λ _, None)
           (λ _, Some (completion (Some "unused"))) (λ _, Some JNull)
           (post sustainability_request) 2 3);
    reflexivity.
Defined.

(* ------------------------------------------------------------------ *)
(** * The Analyze operation and the wizard's own extraction *)

Section AmountPattern.

Lemma span_append s run rest : App.span s = (run, rest) → s = run +:+ rest.
Proof.
  revert run rest. induction s as [|c s IH]; intros run rest; simpl.
  - by intros [= <- <-].
  - destruct (App.digit_or_comma c).
    + destruct (App.span s) as [run' rest'].
      intros [= <- <-]. by rewrite (IH run' rest' eq_refl) at 1.
    + by intros [= <- <-].
Qed.

Lemma cents_prefix rest : ∃ tail, rest = App.cents rest +:+ tail.
Proof.
  destruct rest as [|c [|a [|b t]]]; simpl; try by eexists.
  destruct (bool_decide (c = "."%char) && App.digit a && App.digit b);
    by eexists.
Qed.

(** A match at the head of [s] is a dollar sign, a non-empty run of digits
    and commas, perhaps cents, and [s] goes on from there. *)
Lemma match_here_Some s m :
  App.match_here s = Some m →
  ∃ run after,
    run ≠ EmptyString ∧ m = String "$" run ∧ s = m +:+ after.
Proof.
  destruct s as [|c s]; [discriminate|]. simpl.
  destruct (decide (c = "$"%char)) as [->|]; [|discriminate].
  destruct (App.span s) as [run rest] eqn:Hspan.
  destruct (decide (run = EmptyString)) as [|Hrun]; [discriminate|].
  intros [= <-]. destruct (cents_prefix rest) as [tail Htail].
  exists (run +:+ App.cents rest), tail. split; [|split].
  - destruct run; [done|discriminate].
  - reflexivity.
  - change (String "$" s = String "$" ((run +:+ App.cents rest) +:+ tail)).
    by rewrite <- append_assoc, <- Htail, <- (span_append _ _ _ Hspan).
Qed.

(** What [extractGrantAmount] finds occurs in the text and starts with a
    dollar sign. *)
Lemma amountMatch_sound text m :
  App.amountMatch text = Some m →
  ∃ before run after,
    run ≠ EmptyString ∧ m = String "$" run
    ∧ text = before +:+ m +:+ after.
Proof.
  induction text as [|c text IH].
  - discriminate.
  - cbn [App.amountMatch].
    destruct (App.match_here (String c text)) as [m'|] eqn:Hhere.
    + intros [= ->].
      destruct (match_here_Some _ _ Hhere) as (run & after & Hrun & -> & Hs).
      exists EmptyString, run, after. by rewrite Hs at 1.
    + intros Hrec.
      destruct (IH Hrec) as (before & run & after & Hrun & -> & ->).
      by exists (String c before), run, after.
Qed.

(** It finds nothing exactly when no position of the text starts a match. *)
Lemma amountMatch_None text :
  App.amountMatch text = None ↔
  ∀ before after, text = before +:+ after → App.match_here after = None.
Proof.
  induction text as [|c text IH].
  - split; [|done]. intros _ [|] [|]; try discriminate. done.
  - cbn [App.amountMatch]. split.
    + destruct (App.match_here (String c text)) eqn:Hhere; [discriminate|].
      intros Hrec [|b before] after.
      * intros H. change (String c text = after) in H. by subst after.
      * intros H.
        change (String c text = String b (before +:+ after)) in H.
        injection H as <- ->. by apply (proj1 IH Hrec before).
    + intros Hall. rewrite (Hall EmptyString (String c text) eq_refl).
      apply IH. intros before after ->.
      by apply (Hall (String c before) after).
Qed.

(** A found amount is what the fallback summaries show. *)
Lemma grantAmount_found text m placeholder :
  App.amountMatch text = Some m →
  or_default (App.extractGrantAmount text) placeholder = m.
Proof.
  intros Hm. unfold App.extractGrantAmount. rewrite Hm.
  destruct (amountMatch_sound _ _ Hm) as (_ & run & _ & _ & -> & _).
  reflexivity.
Qed.

End AmountPattern.

(** C2 (as amended).  Analyze never ends without a reply: past the preflight
    it answers 200 with a JSON body whose [summary] is either the fixed
    three-member object of the [catch] block (with 1000 ms) or, when the
    credential, the model call and the parse all succeeded, whatever
    [JSON.parse] made of the model's reply, unchecked (with 2000 ms).  The
    fixed object holds three of the declared fields as strings and leaves the
    other nine out. *)
Theorem analyze_always_replies env (req : Request AnalyzeRequest) n :
  method req ≠ "OPTIONS" →
  (∃ summary ms,
     run (AnalyzeProposal.handler env req) n
     = Responded (json_response (AnalyzeProposal.reply summary ms))
     ∧ ((summary = AnalyzeProposal.basic_extraction ∧ ms = 1000%Z)
        ∨ (ms = 2000%Z
           ∧ ∃ r completion choice,
               json req = Some r ∧ 1 ≤ n
               ∧ is_Some (OPENAI_API_KEY env)
               ∧ chat_completions_create env
                   (AnalyzeProposal.extractionPrompt r) = Some completion
               ∧ choices completion !! 0 = Some choice
               ∧ JSON_parse env (default "null" (content (message choice)))
                 = Some summary)))
  ∧ every_field_typed AnalyzeProposal.basic_extraction = true
  ∧ filter (λ f, is_Some (member f AnalyzeProposal.basic_extraction))
      declared_fields
    = [ "organizationName"; "grantAmount"; "projectDescription" ].
Proof.
  intros Hm. split; [|split; reflexivity].
  rewrite analyze_run by exact Hm.
  destruct n as [|n']; [by eauto 10|].
  destruct (json req) as [r|]; [|by eauto 10].
  unfold analyze_model_path, mbind, result_bind, of_option, new_OpenAI.
  destruct (OPENAI_API_KEY env) as [k|] eqn:Hk; [|by eauto 10].
  destruct (chat_completions_create env (AnalyzeProposal.extractionPrompt r))
    as [c|] eqn:Hc; [|by eauto 10].
  destruct (choices c !! 0) as [ch|] eqn:Hch; [|by eauto 10].
  destruct (JSON_parse env _) as [j|] eqn:Hj; [|by eauto 10].
  exists j, 2000%Z. split; [reflexivity|]. right. split; [reflexivity|].
  exists r, c, ch. repeat split; eauto with lia.
Qed.

Lemma analyze_always_replies_witness :
  method (post test_org_request) ≠ "OPTIONS"
  ∧ ∃ summary ms,
      run (AnalyzeProposal.handler year_as_number (post test_org_request)) 1
      = Responded (json_response (AnalyzeProposal.reply summary ms))
      ∧ ((summary = AnalyzeProposal.basic_extraction ∧ ms = 1000%Z)
         ∨ (ms = 2000%Z
            ∧ ∃ r completion choice,
                json (post test_org_request) = Some r ∧ 1 ≤ 1
                ∧ is_Some (OPENAI_API_KEY year_as_number)
                ∧ chat_completions_create year_as_number
                    (AnalyzeProposal.extractionPrompt r) = Some completion
                ∧ choices completion !! 0 = Some choice
                ∧ JSON_parse year_as_number
                    (default "null" (content (message choice)))
                  = Some summary)).
Proof.
  assert (Hm : method (post test_org_request) ≠ "OPTIONS") by discriminate.
  split; [exact Hm|].
  exact (proj1 (analyze_always_replies year_as_number
                  (post test_org_request) 1 Hm)).
Defined.

(** C2 fails as stated.  On the fallback path nine of the declared fields
    are not in the summary at all, neither as strings nor as [null]; on the
    success path the summary is not checked: a model that gives the founding
    year as a number gets it passed on as a number. *)
Lemma analyze_always_replies_counterexample :
  run (AnalyzeProposal.handler offline (post test_org_request)) 1
  = Responded
      (json_response
         (AnalyzeProposal.reply AnalyzeProposal.basic_extraction 1000))
  ∧ member "organizationMission" AnalyzeProposal.basic_extraction = None
  ∧ every_field_present AnalyzeProposal.basic_extraction = false
  ∧ run (AnalyzeProposal.handler year_as_number (post test_org_request)) 1
    = Responded
        (json_response
           (AnalyzeProposal.reply (JObj [ ("foundingYear", JNum 2020) ]) 2000))
  ∧ every_field_typed (JObj [ ("foundingYear", JNum 2020) ]) = false.
Proof. repeat split; vm_compute; reflexivity. Qed.

(** C3 (as amended).  When no credential is configured or the model call is
    refused, Analyze returns the same summary whatever the text and the file
    name: [Organization], [Unable to fully analyze proposal], [Unknown].
    Summaries built from the input exist in the wizard only: when the call
    to Analyze fails it stores [basicSummary], when the reply has no summary
    it stores [fallbackSummary].  Both are functions of the text alone, not
    of the file name; their grant amount is the match of the dollar pattern
    when there is one, and their project description the first 300 or 200
    characters of a text that is not empty. *)
Theorem analyze_fallback_ignores_input :
  (∀ env (req : Request AnalyzeRequest) n,
     method req ≠ "OPTIONS" →
     OPENAI_API_KEY env = None ∨ (∀ p, chat_completions_create env p = None) →
     run (AnalyzeProposal.handler env req) n = Responded analyze_basic)
  ∧ (∀ cfg net file st b e,
       App.analysed net file = Throw e →
       App.proposalSummary
         (App.handleFileUploaded cfg net (Some file) st b).1
       = Some (App.basicSummary file))
  ∧ (∀ cfg file st b nothing,
       nothing = Undefined ∨ nothing = Null →
       App.proposalSummary
         (App.handleFileUploaded cfg (App.Reply true (Some nothing))
            (Some file) st b).1
       = Some (App.fallbackSummary file))
  ∧ (∀ file1 file2,
       App.text_content file1 = App.text_content file2 →
       App.basicSummary file1 = App.basicSummary file2
       ∧ App.fallbackSummary file1 = App.fallbackSummary file2)
  ∧ (∀ file m,
       App.amountMatch (App.text_content file) = Some m →
       grantAmount (App.basicSummary file) = Value m
       ∧ grantAmount (App.fallbackSummary file) = Value m)
  ∧ (∀ file,
       App.text_content file ≠ EmptyString →
       projectDescription (App.basicSummary file)
       = Value (prefix 300 (App.text_content file))
       ∧ projectDescription (App.fallbackSummary file)
         = Value (prefix 200 (App.text_content file))).
Proof.
  split; [|split; [|split; [|split; [|split]]]].
  - intros env req n Hm Hfail. rewrite analyze_run by exact Hm.
    destruct n as [|n']; [reflexivity|].
    destruct (json req) as [r|]; [|reflexivity].
    unfold analyze_model_path, mbind, result_bind, of_option, new_OpenAI.
    destruct Hfail as [-> | Hnone]; [reflexivity|].
    rewrite Hnone. by destruct (OPENAI_API_KEY env).
  - intros cfg net file st b e He. unfold App.handleFileUploaded.
    by rewrite He.
  - intros cfg file st b nothing [-> | ->]; reflexivity.
  - intros file1 file2 Htext. unfold App.basicSummary, App.fallbackSummary.
    by rewrite Htext.
  - intros file m Hm. unfold App.basicSummary, App.fallbackSummary. simpl.
    by rewrite !(grantAmount_found _ m _ Hm).
  - intros file Htext. unfold App.basicSummary, App.fallbackSummary. simpl.
    unfold or_string.
    destruct (App.text_content file) as [|c text]; [done|].
    split; reflexivity.
Qed.

Lemma analyze_fallback_ignores_input_witness :
  run (AnalyzeProposal.handler offline (post test_org_request)) 1
  = Responded analyze_basic
  ∧ grantAmount (App.basicSummary test_org_file) = Value "$50,000".
Proof.
  split.
  - apply (proj1 analyze_fallback_ignores_input offline
             (post test_org_request) 1);
      [discriminate | left; reflexivity].
  - apply (proj1 (proj2 (proj2 (proj2 (proj2
             analyze_fallback_ignores_input)))))
      with (m := "$50,000").
    reflexivity.
Defined.

(** C3 fails as stated.  On the scenario text, with no credential, the
    grant amount of the reply is [Unknown] although the dollar pattern finds
    [$50,000] in the text, and the project description is a fixed sentence,
    not the beginning of the text. *)
Lemma analyze_fallback_ignores_input_counterexample :
  run (AnalyzeProposal.handler offline (post test_org_request)) 1
  = Responded
      (json_response
         (AnalyzeProposal.reply AnalyzeProposal.basic_extraction 1000))
  ∧ App.amountMatch test_org_text = Some "$50,000"
  ∧ member "grantAmount" AnalyzeProposal.basic_extraction = Some (JStr "Unknown")
  ∧ member "projectDescription" AnalyzeProposal.basic_extraction
    = Some (JStr "Unable to fully analyze proposal")
  ∧ startsWith "Unable to fully analyze proposal" test_org_text = false.
Proof. repeat split; vm_compute; reflexivity. Qed.

(* ------------------------------------------------------------------ *)
(** * The wizard's generate step *)

(** Uploading a file is what calls the backend: one fetch, of the Analyze
    endpoint. *)
Lemma handleFileUploaded_fetches cfg net file st b :
  App.fetches (App.handleFileUploaded cfg net (Some file) st b).2
  = App.fetches b ++ [App.ANALYZE_URL cfg].
Proof.
  unfold App.handleFileUploaded.
  by destruct (App.analysed net file).
Qed.

(** C10.  The generate step fetches nothing, so it never calls the Generate
    operation.  When the memo template returns, both outputs are stored as
    computed in the browser, and the external reply is the one constant
    letter: [generateExternalLetter] does not look at the reason code.  For
    each of the eight codes the memo template returns. *)
Theorem generate_step_is_local reasonCode specificReasons st b :
  App.fetches (App.handleGenerateDecline reasonCode specificReasons st b).2
  = App.fetches b
  ∧ (∀ summary memo,
       App.proposalSummary st = Some summary →
       App.generateNYCTFormattedMemo summary reasonCode specificReasons
       = Ok memo →
       App.generatedOutput
         (App.handleGenerateDecline reasonCode specificReasons st b).1
       = Some {| App.internal_rationale := memo;
                 App.external_reply := App.generateExternalLetter EmptyString;
                 App.generation_time_ms := 2000 |}
       ∧ App.currentStage
           (App.handleGenerateDecline reasonCode specificReasons st b).1
         = App.output)
  ∧ (∀ other, App.generateExternalLetter other
              = App.generateExternalLetter reasonCode)
  ∧ (∀ summary,
       reasonCode ∈ codes →
       ∃ memo,
         App.generateNYCTFormattedMemo summary reasonCode specificReasons
         = Ok memo).
Proof.
  split; [|split; [|split]].
  - unfold App.handleGenerateDecline.
    destruct (App.proposalSummary st) as [summary|]; [|reflexivity].
    by destruct (App.generateNYCTFormattedMemo _ _ _).
  - intros summary memo Hs Hmemo. unfold App.handleGenerateDecline.
    rewrite Hs, Hmemo. split; reflexivity.
  - reflexivity.
  - intros summary Hin. unfold App.generateNYCTFormattedMemo.
    assert (Hl : ∃ pair, App.labels reasonCode = Ok pair).
    { unfold codes, DeclineInput.DECLINE_REASONS in Hin. simpl in Hin.
      repeat (apply elem_of_cons in Hin as [-> | Hin]; [by eexists|]).
      by apply elem_of_nil in Hin. }
    destruct Hl as [[declined_for rationale] ->]. by eexists.
Qed.

Lemma generate_step_is_local_witness :
  App.generatedOutput
    (App.handleGenerateDecline "sustainability"
       "No plan to sustain funding after grant period."
       (reviewing acme) quiet).1
  = Some {| App.internal_rationale :=
              "Acme Org serves the community. This $20,000 request is to support clothing drive. ."
              +:+ recommendation "sustainability concerns"
                    "No plan to sustain funding after grant period."
                    "Sustainability Concerns";
            App.external_reply := App.generateExternalLetter EmptyString;
            App.generation_time_ms := 2000 |}
  ∧ App.currentStage
      (App.handleGenerateDecline "sustainability"
         "No plan to sustain funding after grant period."
         (reviewing acme) quiet).1
    = App.output.
Proof.
  apply (proj1 (proj2
    (generate_step_is_local "sustainability"
       "No plan to sustain funding after grant period."
       (reviewing acme) quiet)) acme);
    reflexivity.
Defined.

(* ------------------------------------------------------------------ *)
(** * Further properties of the two handlers *)

Section Substring.

Lemma length_prefix n s :
  String.length (prefix n s) = n `min` String.length s.
Proof.
  revert s. induction n as [|n IH]; intros [|c s]; simpl; try reflexivity.
  by rewrite IH.
Qed.

Lemma prefix_append n s : ∃ rest, s = prefix n s +:+ rest.
Proof.
  revert s. induction n as [|n IH]; intros s.
  - exists s. by destruct s.
  - destruct s as [|c s]; [by exists EmptyString|].
    destruct (IH s) as [rest Hrest]. exists rest. simpl.
    change (String c s = String c (prefix n s +:+ rest)). by rewrite <- Hrest.
Qed.

Lemma prefix_all n s : String.length s ≤ n → prefix n s = s.
Proof.
  revert s. induction n as [|n IH]; intros [|c s]; simpl; try done.
  - lia.
  - intros Hlen. rewrite IH; [done|lia].
Qed.

Lemma length_append s t :
  String.length (s +:+ t) = String.length s + String.length t.
Proof.
  induction s as [|c s IH]; [reflexivity|].
  change (S (String.length (s +:+ t)) = S (String.length s + String.length t)).
  by rewrite IH.
Qed.

End Substring.

(** X1.  Analyze looks at the first 8000 characters of the text and at
    nothing else of the body: two requests whose texts agree that far end the
    same way, whatever follows in the text and whatever the file names. *)
Theorem analyze_reads_first_8000 env (req1 req2 : Request AnalyzeRequest)
    r1 r2 n :
  method req1 = method req2 →
  json req1 = Some r1 →
  json req2 = Some r2 →
  prefix 8000 (text_content r1) = prefix 8000 (text_content r2) →
  run (AnalyzeProposal.handler env req1) n
  = run (AnalyzeProposal.handler env req2) n.
Proof.
  intros Hm H1 H2 Htext.
  destruct (decide (method req1 = "OPTIONS")) as [Ho|Ho].
  { rewrite !analyze_preflight; [done|congruence|done]. }
  rewrite !analyze_run by congruence. rewrite H1, H2.
  destruct n as [|n']; [reflexivity|].
  unfold analyze_model_path, AnalyzeProposal.extractionPrompt.
  by rewrite Htext.
Qed.

Lemma analyze_reads_first_8000_witness :
  long_text "and one ending" ≠ long_text "and quite another"
  ∧ run (AnalyzeProposal.handler (talkative "{}")
           (post (long_request "and one ending" (Value "a.pdf")))) 1
    = run (AnalyzeProposal.handler (talkative "{}")
             (post (long_request "and quite another" Undefined))) 1.
Proof.
  split.
  - intros Heq. apply (f_equal String.length) in Heq.
    vm_compute in Heq. discriminate.
  - apply (analyze_reads_first_8000 _ _ _
             (long_request "and one ending" (Value "a.pdf"))
             (long_request "and quite another" Undefined));
      [reflexivity | reflexivity | reflexivity | vm_compute; reflexivity].
Defined.

(** X2.  The text handed to the model is the beginning of the proposal text,
    8000 characters of it or all of it when it is shorter. *)
Theorem extraction_prompt_bounds (r : AnalyzeRequest) :
  ∃ sent rest,
    AnalyzeProposal.extractionPrompt r = ExtractionPrompt sent
    ∧ text_content r = sent +:+ rest
    ∧ String.length sent = 8000 `min` String.length (text_content r)
    ∧ (String.length (text_content r) ≤ 8000 → sent = text_content r).
Proof.
  destruct (prefix_append 8000 (text_content r)) as [rest Hrest].
  exists (prefix 8000 (text_content r)), rest.
  split; [reflexivity|]. split; [exact Hrest|].
  split; [apply length_prefix|apply prefix_all].
Qed.

Lemma extraction_prompt_bounds_witness :
  AnalyzeProposal.extractionPrompt test_org_request
  = ExtractionPrompt test_org_text.
Proof.
  destruct (extraction_prompt_bounds test_org_request)
    as (sent & rest & -> & _ & _ & Hall).
  rewrite Hall; [reflexivity|]. vm_compute. lia.
Defined.

(** X3.  Every reply of either function, the preflight included, carries
    the two CORS headers. *)
Theorem cors_on_every_reply :
  (∀ env (req : Request DeclineRequest) n resp,
     run (GenerateDecline.handler env req) n = Responded resp →
     headers resp !! "Access-Control-Allow-Origin" = Some "*"
     ∧ headers resp !! "Access-Control-Allow-Headers"
       = Some "authorization, x-client-info, apikey, content-type")
  ∧ (∀ env (req : Request AnalyzeRequest) n,
       ∃ resp,
         run (AnalyzeProposal.handler env req) n = Responded resp
         ∧ headers resp !! "Access-Control-Allow-Origin" = Some "*"
         ∧ headers resp !! "Access-Control-Allow-Headers"
           = Some "authorization, x-client-info, apikey, content-type").
Proof.
  split.
  - intros env req n resp Hrun.
    destruct (decide (method req = "OPTIONS")) as [Hm|Hm].
    { rewrite generate_preflight in Hrun by exact Hm.
      injection Hrun as <-. split; reflexivity. }
    destruct (generate_replies env req n resp Hm Hrun)
      as (r & _ & _ & [Hok | (e & memo & _ & _ & _ & ->)]).
    + destruct (generate_model_path_Ok env r resp Hok)
        as (? & ? & ? & ? & ? & _ & _ & _ & _ & _ & _ & ->).
      split; reflexivity.
    + split; reflexivity.
  - intros env req n.
    destruct (decide (method req = "OPTIONS")) as [Hm|Hm].
    { exists preflight. rewrite analyze_preflight by exact Hm.
      repeat split; reflexivity. }
    rewrite analyze_run by exact Hm. eexists. split; [reflexivity|].
    destruct n as [|n']; [split; reflexivity|].
    destruct (json req) as [r|]; [|split; reflexivity].
    unfold analyze_model_path, mbind, result_bind, of_option.
    destruct (new_OpenAI _); [|split; reflexivity].
    destruct (chat_completions_create env _); [|split; reflexivity].
    destruct (choices _ !! 0); [|split; reflexivity].
    destruct (JSON_parse env _); split; reflexivity.
Qed.

Lemma cors_on_every_reply_witness :
  headers (template_reply sustainability_request sustainability_memo)
    !! "Access-Control-Allow-Origin" = Some "*".
Proof.
  apply (proj1 cors_on_every_reply offline (post sustainability_request) 2).
  reflexivity.
Defined.

(** X4.  How often the body is consumed.  A preflight leaves it alone;
    Analyze consumes it once; Generate consumes it once when the model path
    returns and goes for it a second time in every other case. *)
Theorem body_reads :
  (∀ env (req : Request AnalyzeRequest) n,
     (AnalyzeProposal.handler env req n).2
     = if decide (method req = "OPTIONS") then n else pred n)
  ∧ (∀ env (req : Request DeclineRequest) n,
       (GenerateDecline.handler env req n).2
       = if decide (method req = "OPTIONS") then n
         else match generate_model_path env <$> json req with
              | Some (Ok _) => pred n
              | _ => pred (pred n)
              end).
Proof.
  split.
  - intros env req n. unfold AnalyzeProposal.handler, try_catch.
    destruct (decide (method req = "OPTIONS")); [reflexivity|].
    rewrite analyze_attempt_unfold.
    destruct n as [|n']; [reflexivity|].
    destruct (json req) as [r|]; [|reflexivity].
    by destruct (analyze_model_path env r).
  - intros env req n. unfold GenerateDecline.handler, try_catch.
    destruct (decide (method req = "OPTIONS")); [reflexivity|].
    rewrite generate_attempt_unfold.
    destruct n as [|n']; cbv beta iota.
    { rewrite generate_fallback_unfold.
      destruct (json req) as [r|]; [|reflexivity].
      change (generate_model_path env <$> Some r)
        with (Some (generate_model_path env r)).
      by destruct (generate_model_path env r). }
    destruct (json req) as [r|] eqn:Hr; cbv beta iota.
    + change (generate_model_path env <$> Some r)
        with (Some (generate_model_path env r)).
      destruct (generate_model_path env r); [reflexivity|].
      rewrite generate_fallback_unfold, Hr. by destruct n'.
    + rewrite generate_fallback_unfold, Hr. by destruct n'.
Qed.

(** X5.  When both completions arrive, one read of the body is enough and
    the reply carries the content of the first choice of each, as it is:
    a [null] content goes out as [null], an empty one as the empty string,
    and the templates are not used. *)
Theorem completions_are_forwarded env (req : Request DeclineRequest)
    r n k p memoCompletion memoChoice letterCompletion letterChoice :
  method req ≠ "OPTIONS" →
  json req = Some r →
  OPENAI_API_KEY env = Some k →
  GenerateDecline.memoPrompt r = Ok p →
  chat_completions_create env p = Some memoCompletion →
  choices memoCompletion !! 0 = Some memoChoice →
  chat_completions_create env (GenerateDecline.letterPrompt r)
  = Some letterCompletion →
  choices letterCompletion !! 0 = Some letterChoice →
  run (GenerateDecline.handler env req) (S n)
  = Responded
      (json_response
         (GenerateDecline.reply
            (json_of_content (content (message memoChoice)))
            (json_of_content (content (message letterChoice))) 3000)).
Proof.
  intros Hm Hr Hk Hp Hc1 Hch1 Hc2 Hch2.
  rewrite generate_run by exact Hm. rewrite Hr.
  unfold generate_model_path, mbind, result_bind, new_OpenAI, of_option.
  by rewrite Hk, Hp, Hc1, Hch1, Hc2, Hch2.
Qed.

Lemma completions_are_forwarded_witness :
  run (GenerateDecline.handler silent (post sustainability_request)) 1
  = Responded (json_response (GenerateDecline.reply JNull JNull 3000)).
Proof.
  exact (completions_are_forwarded silent (post sustainability_request)
           sustainability_request 0 "sk-test" _ _ _ _ _
           ltac:(discriminate) eq_refl eq_refl eq_refl eq_refl eq_refl
           eq_refl eq_refl).
Defined.

(* ------------------------------------------------------------------ *)
(** * Further properties of the two memo templates *)

Section Lines.

Lemma split_not_nil sep s : split sep s ≠ [].
Proof.
  destruct s as [|c s]; simpl; [done|].
  destruct (decide (c = sep)); [done|]. by destruct (split sep s).
Qed.

(** Splitting what was joined with the separator. *)
Lemma split_append sep a b :
  split sep (a +:+ String sep b) = split sep a ++ split sep b.
Proof.
  induction a as [|c a IH].
  - change (split sep (String sep b) = [EmptyString] ++ split sep b).
    simpl. by destruct (decide (sep = sep)).
  - change (split sep (String c (a +:+ String sep b))
            = split sep (String c a) ++ split sep b).
    simpl. rewrite IH.
    destruct (decide (c = sep)); [done|].
    pose proof (split_not_nil sep a). by destruct (split sep a).
Qed.

Lemma last_line_after_newline a line :
  last_line (a +:+ String "010" line) = last_line line.
Proof.
  unfold last_line. rewrite split_append.
  pose proof (split_not_nil "010" line).
  destruct (split "010" line) as [|p l] eqn:E; [done|].
  apply last_app_cons.
Qed.

Lemma newline_here v : ∃ u v', String "010" v = u +:+ String "010" v'.
Proof. by exists EmptyString, v. Qed.

Lemma newline_append x b :
  (∃ u v, b = u +:+ String "010" v) →
  ∃ u v, x +:+ b = u +:+ String "010" v.
Proof. intros (u & v & ->). exists (x +:+ u), v. apply append_assoc. Qed.

(** Text in front of a text that has a line break does not change the
    last line. *)
Lemma last_line_skip a b :
  (∃ u v, b = u +:+ String "010" v) → last_line (a +:+ b) = last_line b.
Proof.
  intros (u & v & ->).
  by rewrite append_assoc, !last_line_after_newline.
Qed.

Lemma startsWith_append p s : startsWith p (p +:+ s) = true.
Proof.
  induction p as [|c p IH]; [reflexivity|].
  change (bool_decide (c = c) && startsWith p (p +:+ s) = true).
  rewrite IH. by rewrite bool_decide_eq_true_2.
Qed.

Lemma startsWith_pieces a b c d e rest :
  startsWith (a +:+ b +:+ c +:+ d +:+ e)
             (a +:+ b +:+ c +:+ d +:+ e +:+ rest) = true.
Proof.
  rewrite (append_assoc d e rest), (append_assoc c _ rest),
    (append_assoc b _ rest), (append_assoc a _ rest).
  apply startsWith_append.
Qed.

Lemma startsWith_more_pieces a b c d e f rest :
  startsWith (a +:+ b +:+ c +:+ d +:+ e +:+ f)
             (a +:+ b +:+ c +:+ d +:+ e +:+ f +:+ rest) = true.
Proof.
  rewrite (append_assoc e f rest), (append_assoc d _ rest),
    (append_assoc c _ rest), (append_assoc b _ rest),
    (append_assoc a _ rest).
  apply startsWith_append.
Qed.

Lemma includes_here p s : startsWith p s = true → includes p s = true.
Proof. intros H. destruct s; simpl; by rewrite H. Qed.

Lemma includes_append a p s :
  includes p s = true → includes p (a +:+ s) = true.
Proof.
  intros H. induction a as [|c a IH]; [exact H|].
  change (includes p (String c (a +:+ s)) = true).
  simpl. rewrite IH. apply orb_true_r.
Qed.

(** Each listed code resolves, in both templates, to its label and the
    lower-case form of it, and no label has a line break. *)
Lemma listed_labels reason :
  reason ∈ DeclineInput.DECLINE_REASONS →
  GenerateDecline.labels (DeclineInput.value reason)
  = Ok (toLowerCase (DeclineInput.label reason), DeclineInput.label reason)
  ∧ App.labels (DeclineInput.value reason)
    = Ok (toLowerCase (DeclineInput.label reason), DeclineInput.label reason)
  ∧ last_line ("Rationale: " +:+ DeclineInput.label reason)
    = Some ("Rationale: " +:+ DeclineInput.label reason).
Proof.
  unfold DeclineInput.DECLINE_REASONS. intros Hin.
  repeat (apply elem_of_cons in Hin as [-> | Hin];
          [repeat split; vm_compute; reflexivity|]).
  by apply elem_of_nil in Hin.
Qed.

End Lines.

Ltac has_newline :=
  solve [ repeat first [ exact (newline_here _) | apply newline_append ] ].

Lemma fallbackMemo_last_line reason summary specificReasons :
  reason ∈ DeclineInput.DECLINE_REASONS →
  ∃ memo,
    GenerateDecline.fallbackMemo
      {| reason_code := DeclineInput.value reason;
         specific_reasons := specificReasons;
         proposal_summary := summary |} = Ok memo
    ∧ last_line memo = Some ("Rationale: " +:+ DeclineInput.label reason).
Proof.
  intros Hin. destruct (listed_labels reason Hin) as (Hb & _ & Hline).
  unfold GenerateDecline.fallbackMemo. cbn [reason_code]. rewrite Hb.
  eexists. split; [reflexivity|]. cbn [proposal_summary specific_reasons].
  repeat (rewrite last_line_skip by has_newline).
  etrans; [|exact Hline].
  exact (last_line_after_newline (String "010" EmptyString) _).
Qed.

Lemma generated_memo_last_line reason summary specificReasons :
  reason ∈ DeclineInput.DECLINE_REASONS →
  ∃ memo,
    App.generateNYCTFormattedMemo summary (DeclineInput.value reason)
      specificReasons = Ok memo
    ∧ last_line memo = Some ("Rationale: " +:+ DeclineInput.label reason).
Proof.
  intros Hin. destruct (listed_labels reason Hin) as (_ & Hf & Hline).
  unfold App.generateNYCTFormattedMemo. rewrite Hf.
  eexists. split; [reflexivity|].
  repeat (rewrite last_line_skip by has_newline).
  etrans; [|exact Hline].
  exact (last_line_after_newline (String "010" EmptyString) _).
Qed.

(** X6.  Whatever the summary and however many lines the justification has,
    the memo of a listed reason ends with the line [Rationale: ] and the
    label of that reason, in the backend's fallback template and in the
    wizard's template alike. *)
Theorem memo_ends_with_rationale_line reason summary specificReasons :
  reason ∈ DeclineInput.DECLINE_REASONS →
  (∃ memo,
     GenerateDecline.fallbackMemo
       {| reason_code := DeclineInput.value reason;
          specific_reasons := specificReasons;
          proposal_summary := summary |} = Ok memo
     ∧ last_line memo = Some ("Rationale: " +:+ DeclineInput.label reason))
  ∧ (∃ memo,
       App.generateNYCTFormattedMemo summary (DeclineInput.value reason)
         specificReasons = Ok memo
       ∧ last_line memo
         = Some ("Rationale: " +:+ DeclineInput.label reason)).
Proof.
  intros Hin. split.
  - by apply fallbackMemo_last_line.
  - by apply generated_memo_last_line.
Qed.

Lemma memo_ends_with_rationale_line_witness :
  ∃ memo,
    App.generateNYCTFormattedMemo blank "sustainability" "First line.
Second line." = Ok memo
    ∧ last_line memo = Some "Rationale: Sustainability Concerns".
Proof.
  apply (proj2 (memo_ends_with_rationale_line sustainability_reason blank
                  "First line.
Second line."
                  (list_elem_of_lookup_2 DeclineInput.DECLINE_REASONS 7
                     sustainability_reason eq_refl))).
Defined.

(** X7.  A field the summary lacks shows in the wizard's memo as the word
    [undefined] (or [null]): the memo begins with the organization name as
    the template literal prints it and goes on with the grant amount and
    the project description printed the same way.  The backend's fallback
    memo begins with the three fields or their placeholders
    ([The organization], [funding], [their project]). *)
Theorem missing_fields_in_memos :
  (∀ summary reasonCode specificReasons memo,
     App.generateNYCTFormattedMemo summary reasonCode specificReasons
     = Ok memo →
     startsWith (interpolate (organizationName summary)) memo = true
     ∧ includes (". This " +:+ interpolate (grantAmount summary)
                 +:+ " request is to support "
                 +:+ interpolate (projectDescription summary) +:+ ". ")
                memo = true)
  ∧ (∀ r memo,
       GenerateDecline.fallbackMemo r = Ok memo →
       startsWith
         (or_default (organizationName (proposal_summary r))
            "The organization"
          +:+ " requests "
          +:+ or_default (grantAmount (proposal_summary r)) "funding"
          +:+ " to support "
          +:+ or_default (projectDescription (proposal_summary r))
                "their project"
          +:+ ".") memo = true).
Proof.
  split.
  - intros summary reasonCode specificReasons memo.
    unfold App.generateNYCTFormattedMemo.
    destruct (App.labels reasonCode) as [[declined_for rationale]|];
      [|discriminate].
    intros [= <-]. split; [apply startsWith_append|].
    do 4 apply includes_append. apply includes_here.
    apply startsWith_pieces.
  - intros r memo. unfold GenerateDecline.fallbackMemo.
    destruct (GenerateDecline.labels (reason_code r))
      as [[declined_for rationale]|]; [|discriminate].
    intros [= <-].
    exact (startsWith_more_pieces _ " requests " _ " to support " _ "."
             (recommendation declined_for (specific_reasons r) rationale)).
Qed.

Lemma missing_fields_in_memos_witness :
  ∃ memo,
    App.generateNYCTFormattedMemo blank "sustainability" "Reasons." = Ok memo
    ∧ startsWith "undefined" memo = true
    ∧ includes ". This undefined request is to support undefined. " memo
      = true.
Proof.
  eexists. split; [reflexivity|].
  exact (proj1 missing_fields_in_memos blank "sustainability" "Reasons." _
           eq_refl).
Defined.

(* ------------------------------------------------------------------ *)
(** * Further properties of the wizard's text helpers *)

Section Trimming.

Lemma append_nil_r s : s +:+ EmptyString = s.
Proof.
  induction s as [|c s IH]; [reflexivity|].
  change (String c (s +:+ EmptyString) = String c s). by rewrite IH.
Qed.

Lemma rev_app_spec s acc : String.rev_app s acc = String.rev s +:+ acc.
Proof.
  revert acc. induction s as [|c s IH]; intros acc; [reflexivity|].
  unfold String.rev. simpl. rewrite (IH (String c acc)), (IH (String c EmptyString)).
  by rewrite <- append_assoc.
Qed.

Lemma rev_cons c s : String.rev (String c s) = String.rev s +:+ String c EmptyString.
Proof. unfold String.rev at 1. simpl. apply rev_app_spec. Qed.

Lemma rev_append s t : String.rev (s +:+ t) = String.rev t +:+ String.rev s.
Proof.
  induction s as [|c s IH].
  - change (String.rev t = String.rev t +:+ EmptyString).
    by rewrite append_nil_r.
  - change (String.rev (String c (s +:+ t))
            = String.rev t +:+ String.rev (String c s)).
    by rewrite !rev_cons, IH, append_assoc.
Qed.

Lemma rev_involutive s : String.rev (String.rev s) = s.
Proof.
  induction s as [|c s IH]; [reflexivity|].
  rewrite rev_cons, rev_append, IH. reflexivity.
Qed.

Lemma all_chars_append test s t :
  all_chars test (s +:+ t) = all_chars test s && all_chars test t.
Proof.
  induction s as [|c s IH]; [reflexivity|].
  change (test c && all_chars test (s +:+ t)
          = test c && all_chars test s && all_chars test t).
  by rewrite IH, andb_assoc.
Qed.

Lemma all_chars_rev test s : all_chars test (String.rev s) = all_chars test s.
Proof.
  induction s as [|c s IH]; [reflexivity|].
  rewrite rev_cons, all_chars_append, IH. simpl.
  rewrite andb_true_r. apply andb_comm.
Qed.

(** [trimStart] takes white space off the front and nothing else. *)
Lemma trimStart_spec s :
  ∃ w, s = w +:+ trimStart s ∧ all_chars white_space w = true.
Proof.
  induction s as [|c s (w & Hs & Hw)]; [by exists EmptyString|].
  simpl. destruct (white_space c) eqn:Hc.
  - exists (String c w). split; [|by simpl; rewrite Hc].
    change (String c s = String c (w +:+ trimStart s)). by rewrite <- Hs.
  - by exists EmptyString.
Qed.

Lemma trimStart_idem s : trimStart (trimStart s) = trimStart s.
Proof.
  induction s as [|c s IH]; [reflexivity|]. simpl.
  destruct (white_space c) eqn:Hc; [exact IH|]. simpl. by rewrite Hc.
Qed.

Lemma trimStart_nil s :
  trimStart s = EmptyString ↔ all_chars white_space s = true.
Proof.
  induction s as [|c s IH]; [done|]. simpl.
  destruct (white_space c); [exact IH|]. split; discriminate.
Qed.

(** A text that does not start with white space and has a non-empty
    beginning [a]: neither does [a]. *)
Lemma trimStart_beginning a b :
  a ≠ EmptyString → trimStart (a +:+ b) = a +:+ b → trimStart a = a.
Proof.
  destruct a as [|c a]; [done|]. intros _.
  change (trimStart (String c (a +:+ b)) = String c (a +:+ b)
          → trimStart (String c a) = String c a).
  simpl. destruct (white_space c); [|done].
  intros Heq. exfalso.
  destruct (trimStart_spec (a +:+ b)) as (w & Hw & _).
  apply (f_equal String.length) in Hw. rewrite Heq in Hw.
  rewrite !length_append in Hw. simpl in Hw.
  rewrite ?length_append in Hw. lia.
Qed.

(** What [trim] returns is trimmed on both sides. *)
Lemma trim_idem s : trim (trim s) = trim s.
Proof.
  unfold trim.
  set (t := trimStart s). set (u := trimStart (String.rev t)).
  assert (Hfront : trimStart (String.rev u) = String.rev u).
  { destruct (decide (u = EmptyString)) as [->|Hu]; [reflexivity|].
    destruct (trimStart_spec (String.rev t)) as (w & Hw & _). fold u in Hw.
    apply (f_equal String.rev) in Hw.
    rewrite rev_involutive, rev_append in Hw.
    apply (trimStart_beginning _ (String.rev w)).
    - intros Hnil. apply Hu.
      by rewrite <- (rev_involutive u), Hnil.
    - rewrite <- Hw. apply trimStart_idem. }
  rewrite Hfront, rev_involutive. unfold u. by rewrite trimStart_idem.
Qed.

(** It returns the empty string on white space alone, and only then. *)
Lemma trim_nil s : trim s = EmptyString ↔ all_chars white_space s = true.
Proof.
  unfold trim. split.
  - intros Hnil. apply (f_equal String.rev) in Hnil.
    rewrite rev_involutive in Hnil. change (String.rev EmptyString) with EmptyString in Hnil.
    apply trimStart_nil in Hnil. rewrite all_chars_rev in Hnil.
    apply trimStart_nil in Hnil. rewrite trimStart_idem in Hnil.
    by apply trimStart_nil.
  - intros Hall. apply trimStart_nil in Hall. by rewrite Hall.
Qed.

(** It keeps characters of the text only. *)
Lemma all_chars_trim test s :
  all_chars test s = true → all_chars test (trim s) = true.
Proof.
  assert (Hstart : ∀ t, all_chars test t = true
                        → all_chars test (trimStart t) = true).
  { intros t Ht. destruct (trimStart_spec t) as (w & Hw & _).
    rewrite Hw, all_chars_append in Ht. by apply andb_true_iff in Ht as [_ ?]. }
  intros Hs. unfold trim. rewrite all_chars_rev.
  apply Hstart. rewrite all_chars_rev. by apply Hstart.
Qed.

End Trimming.

(** X8.  The form hands on nothing until a reason is chosen and the
    justification has something other than white space in it; then it hands
    on both exactly as entered, the justification untrimmed. *)
Theorem handleGenerate_validates selectedReason specificReasons :
  match DeclineInput.handleGenerate selectedReason specificReasons with
  | inr (reasonCode, reasons) =>
      reasonCode = selectedReason ∧ reasons = specificReasons
      ∧ selectedReason ≠ EmptyString
      ∧ all_chars white_space specificReasons = false
  | inl errors =>
      (is_Some (DeclineInput.reason errors) ↔ selectedReason = EmptyString)
      ∧ (is_Some (DeclineInput.details errors)
         ↔ all_chars white_space specificReasons = true)
      ∧ (selectedReason = EmptyString
         ∨ all_chars white_space specificReasons = true)
  end.
Proof.
  unfold DeclineInput.handleGenerate. cbn [DeclineInput.reason DeclineInput.details].
  pose proof (trim_nil specificReasons) as Hblank.
  destruct (decide (selectedReason = EmptyString)) as [Hsel|Hsel];
    destruct (decide (trim specificReasons = EmptyString)) as [Htrim|Htrim];
    cbn [DeclineInput.reason DeclineInput.details];
    repeat split; try done; try tauto;
    try (by intros [? [=]]); try (by eexists).
  all: destruct (all_chars white_space specificReasons); tauto || done.
Qed.

Lemma handleGenerate_validates_witness :
  (is_Some (DeclineInput.details
              {| DeclineInput.reason := None;
                 DeclineInput.details :=
                   Some "Please provide specific reasons for the decline" |})
   ↔ all_chars white_space "   " = true).
Proof.
  exact (proj1 (proj2 (handleGenerate_validates "sustainability" "   "))).
Defined.

Section Searching.

Lemma startsWith_spec p s : startsWith p s = true → ∃ b, s = p +:+ b.
Proof.
  revert s. induction p as [|c p IH]; intros s; [by exists s|].
  destruct s as [|d s]; [discriminate|]. simpl.
  intros [Hc Hp]%andb_true_iff. apply bool_decide_eq_true in Hc as ->.
  destruct (IH s Hp) as [b ->]. by exists b.
Qed.

Lemma includes_spec p s : includes p s = true → ∃ a b, s = a +:+ p +:+ b.
Proof.
  induction s as [|c s IH]; simpl.
  - rewrite orb_false_r. intros [b ->]%startsWith_spec. by exists EmptyString, b.
  - intros [Hhere | Hlater]%orb_true_iff.
    + destruct (startsWith_spec _ _ Hhere) as [b ->]. by exists EmptyString, b.
    + destruct (IH Hlater) as (a & b & ->). by exists (String c a), b.
Qed.

(** The pieces of a split do not contain the separator, and keep whatever
    all characters of the text have in common. *)
Lemma split_pieces_clean sep s :
  Forall (λ p, all_chars (other_than sep) p = true) (split sep s).
Proof.
  induction s as [|c s IH]; simpl; [by repeat constructor|].
  destruct (decide (c = sep)) as [->|Hc]; [by constructor|].
  pose proof (split_not_nil sep s).
  destruct (split sep s) as [|p l]; [done|].
  apply Forall_cons in IH as [Hp Hl]. constructor; [|done]. simpl.
  rewrite Hp. unfold other_than. by rewrite bool_decide_eq_false_2.
Qed.

Lemma split_pieces_keep test sep s :
  all_chars test s = true →
  Forall (λ p, all_chars test p = true) (split sep s).
Proof.
  induction s as [|c s IH]; simpl; [by repeat constructor|].
  intros [Hc Hs]%andb_true_iff. specialize (IH Hs).
  destruct (decide (c = sep)); [by constructor|].
  pose proof (split_not_nil sep s).
  destruct (split sep s) as [|p l]; [done|].
  apply Forall_cons in IH as [Hp Hl]. constructor; [|done]. simpl.
  by rewrite Hc, Hp.
Qed.

(** A line that has a colon has something, if only the empty string, after
    its first colon. *)
Lemma split_second_piece a b : is_Some (split ":" (a +:+ String ":" b) !! 1).
Proof.
  rewrite split_append.
  pose proof (split_not_nil ":" a). pose proof (split_not_nil ":" b).
  destruct (split ":" a) as [|p [|q l]]; [done| |by eexists].
  destruct (split ":" b); [done|by eexists].
Qed.

Lemma labelled_has_piece line :
  includes "Organization:" line || includes "Applicant:" line = true →
  is_Some (split ":" line !! 1).
Proof.
  intros [H | H]%orb_true_iff;
    destruct (includes_spec _ _ H) as (a & b & ->).
  - rewrite (append_assoc a).
    replace ((a +:+ "Organization:") +:+ b)
      with ((a +:+ "Organization") +:+ String ":" b)
      by (rewrite <- !append_assoc; reflexivity).
    apply split_second_piece.
  - rewrite (append_assoc a).
    replace ((a +:+ "Applicant:") +:+ b)
      with ((a +:+ "Applicant") +:+ String ":" b)
      by (rewrite <- !append_assoc; reflexivity).
    apply split_second_piece.
Qed.

End Searching.

(** X9.  What [extractOrganizationName] finds is the trimmed text between
    the first and the second colon of the first line that names
    [Organization:] or [Applicant:]: it has no white space at either end, no
    colon and no line break.  It finds nothing only when no line names
    either. *)
Theorem extractOrganizationName_shape text :
  match App.extractOrganizationName text with
  | Value name =>
      trim name = name
      ∧ all_chars (other_than ":") name = true
      ∧ all_chars (other_than "010") name = true
      ∧ ∃ before line after piece,
          split "010" text = before ++ line :: after
          ∧ Forall (λ l, includes "Organization:" l || includes "Applicant:" l
                         = false) before
          ∧ includes "Organization:" line || includes "Applicant:" line = true
          ∧ split ":" line !! 1 = Some piece
          ∧ name = trim piece
  | Undefined =>
      Forall (λ l, includes "Organization:" l || includes "Applicant:" l
                   = false) (split "010" text)
  | Null => False
  end.
Proof.
  unfold App.extractOrganizationName.
  pose proof (split_pieces_clean "010" text) as Hlines.
  induction (split "010" text) as [|line lines IH]; simpl; [constructor|].
  apply Forall_cons in Hlines as [Hline Hlines]. specialize (IH Hlines).
  destruct (includes "Organization:" line || includes "Applicant:" line)
    eqn:Hlab.
  - destruct (labelled_has_piece line Hlab) as [piece Hpiece].
    rewrite Hpiece. split; [apply trim_idem|].
    pose proof (split_pieces_clean ":" line) as Hcolon.
    pose proof (split_pieces_keep _ ":" line Hline) as Hbreak.
    rewrite Forall_lookup in Hcolon, Hbreak.
    split; [apply all_chars_trim, (Hcolon 1 piece Hpiece)|].
    split; [apply all_chars_trim, (Hbreak 1 piece Hpiece)|].
    exists [], line, lines, piece. by repeat split.
  - destruct (App.labelled_line lines) as [| |name]; [|done|].
    + by constructor.
    + destruct IH as (Ht & Hc & Hb & before & l & after & piece
                      & -> & Hbefore & Hl & Hp & ->).
      repeat split; try done.
      exists (line :: before), l, after, piece.
      repeat split; try done. by constructor.
Qed.

Section Classes.

(** The two character classes of the patterns, as lists of characters. *)
Lemma digit_decimal c : App.digit c = decimal c.
Proof. by destruct c as [[] [] [] [] [] [] [] []]. Qed.

Lemma digit_or_comma_amount c : App.digit_or_comma c = amount_char c.
Proof. by destruct c as [[] [] [] [] [] [] [] []]. Qed.

Lemma all_chars_ext f g s :
  (∀ c, f c = g c) → all_chars f s = all_chars g s.
Proof. intros Hfg. induction s as [|c s IH]; simpl; [done|]. by rewrite Hfg, IH. Qed.

(** Two ways of cutting one string, the first cut being the earlier. *)
Lemma append_cut u v b r :
  u +:+ v = b +:+ r → String.length u < String.length b →
  ∃ w, b = u +:+ w ∧ w ≠ EmptyString ∧ v = w +:+ r.
Proof.
  revert b. induction u as [|c u IH]; intros [|d b]; simpl; try lia.
  - intros H _. change (v = String d b +:+ r) in H.
    by exists (String d b).
  - intros H Hlen.
    change (String c (u +:+ v) = String d (b +:+ r)) in H.
    injection H as -> H.
    destruct (IH b H ltac:(lia)) as (w & -> & Hw & ->). by exists w.
Qed.

End Classes.

Section Amounts.

Lemma span_all s run rest :
  App.span s = (run, rest) → all_chars amount_char run = true.
Proof.
  revert run rest. induction s as [|c s IH]; intros run rest; simpl.
  - by intros [= <- <-].
  - destruct (App.digit_or_comma c) eqn:Hc.
    + destruct (App.span s) as [run' rest'].
      intros [= <- <-]. simpl.
      by rewrite <- digit_or_comma_amount, Hc, (IH run' rest').
    + by intros [= <- <-].
Qed.

Lemma span_rest s run rest c rest' :
  App.span s = (run, rest) → rest = String c rest' →
  amount_char c = false.
Proof.
  rewrite <- digit_or_comma_amount.
  revert run. induction s as [|d s IH]; intros run; simpl.
  - intros [= <- <-]. discriminate.
  - destruct (App.digit_or_comma d) eqn:Hd.
    + destruct (App.span s) as [run' rest0].
      intros [= <- <-]. by apply (IH run').
    + intros [= <- <-] [= <- <-]. exact Hd.
Qed.

(** The cents are nothing, or a point and two digits ... *)
Lemma cents_shape rest :
  App.cents rest = EmptyString
  ∨ ∃ a b, App.cents rest = String "." (String a (String b EmptyString))
           ∧ decimal a = true ∧ decimal b = true.
Proof.
  destruct rest as [|c [|a [|b t]]]; simpl; try by left.
  destruct (bool_decide (c = "."%char)) eqn:Hc; simpl; [|by left].
  apply bool_decide_eq_true in Hc as ->.
  rewrite !digit_decimal.
  destruct (decimal a) eqn:Ha; simpl; [|by left].
  destruct (decimal b) eqn:Hb; simpl; [|by left].
  right. by exists a, b.
Qed.

(** ... and they are taken where a point and two digits follow. *)
Lemma cents_taken rest after a b t :
  rest = App.cents rest +:+ after →
  App.cents rest = EmptyString →
  after = String "." (String a (String b t)) →
  decimal a && decimal b = false.
Proof.
  intros Hrest Hnone ->. rewrite Hnone in Hrest.
  change (rest = String "." (String a (String b t))) in Hrest. subst rest.
  simpl in Hnone. rewrite !digit_decimal in Hnone.
  by destruct (decimal a), (decimal b).
Qed.

Lemma match_here_shape s m :
  App.match_here s = Some m →
  ∃ digits tail after,
    s = m +:+ after ∧ m = String "$" (digits +:+ tail)
    ∧ digits ≠ EmptyString
    ∧ all_chars amount_char digits = true
    ∧ (∀ c rest, tail +:+ after = String c rest → amount_char c = false)
    ∧ (tail = EmptyString
       ∨ ∃ a b, tail = String "." (String a (String b EmptyString))
                ∧ decimal a = true ∧ decimal b = true)
    ∧ (∀ a b rest,
         tail = EmptyString →
         after = String "." (String a (String b rest)) →
         decimal a && decimal b = false).
Proof.
  destruct s as [|c s]; [discriminate|]. simpl.
  destruct (decide (c = "$"%char)) as [->|]; [|discriminate].
  destruct (App.span s) as [run rest] eqn:Hspan.
  destruct (decide (run = EmptyString)) as [|Hrun]; [discriminate|].
  intros [= <-]. destruct (cents_prefix rest) as [after Hafter].
  exists run, (App.cents rest), after. split; [|split; [done|split; [done|]]].
  - change (String "$" s = String "$" ((run +:+ App.cents rest) +:+ after)).
    by rewrite <- append_assoc, <- Hafter, <- (span_append _ _ _ Hspan).
  - split; [exact (span_all _ _ _ Hspan)|].
    split; [|split; [apply cents_shape|]].
    + intros c rest'. rewrite <- Hafter. exact (span_rest _ _ _ _ _ Hspan).
    + intros a b t Hnone Hpoint.
      exact (cents_taken rest after a b t Hafter Hnone Hpoint).
Qed.

(** A dollar sign and one digit or comma are enough for a match. *)
Lemma match_here_starts c s :
  amount_char c = true → is_Some (App.match_here (String "$" (String c s))).
Proof.
  intros Hc. rewrite <- digit_or_comma_amount in Hc.
  cbn [App.match_here App.span]. rewrite Hc.
  destruct (decide ("$"%char = "$"%char)); [|done].
  destruct (App.span s) as [run rest].
  by destruct (decide (String c run = EmptyString)).
Qed.

Lemma match_here_None v c rest :
  App.match_here v = None → v = String "$" (String c rest) →
  amount_char c = false.
Proof.
  intros Hnone ->. destruct (amount_char c) eqn:Hc; [|done].
  destruct (match_here_starts c rest Hc) as [m Hm]. congruence.
Qed.

Lemma amountMatch_leftmost text m :
  App.amountMatch text = Some m →
  ∃ before after,
    text = before +:+ m +:+ after
    ∧ App.match_here (m +:+ after) = Some m
    ∧ ∀ u v, before = u +:+ v → v ≠ EmptyString →
             App.match_here (v +:+ m +:+ after) = None.
Proof.
  induction text as [|c text IH]; [discriminate|].
  cbn [App.amountMatch].
  destruct (App.match_here (String c text)) as [m'|] eqn:Hhere.
  - intros [= ->].
    destruct (match_here_shape _ _ Hhere) as (_ & _ & after & Hs & _).
    exists EmptyString, after. split; [exact Hs|]. split.
    + by rewrite <- Hs.
    + intros [|] [|]; try discriminate. done.
  - intros Hrec. destruct (IH Hrec) as (before & after & -> & Hm & Hnone).
    exists (String c before), after. split; [reflexivity|]. split; [exact Hm|].
    intros [|d u] v Huv Hv.
    + change (String c before = v) in Huv. subst v. exact Hhere.
    + change (String c before = String d (u +:+ v)) in Huv.
      injection Huv as <- ->. exact (Hnone u v eq_refl Hv).
Qed.

End Amounts.

(** X10.  What [extractGrantAmount] finds is at the leftmost place of the
    text where a dollar sign is followed by a digit or a comma: the sign,
    the whole run of digits and commas after it, and a point with two
    digits whenever that comes next (and nothing else).  It finds nothing
    exactly when the text has no dollar sign followed by a digit or a
    comma.  The digits are the ten characters 0 to 9. *)
Theorem extractGrantAmount_shape text :
  match App.extractGrantAmount text with
  | Value m =>
      ∃ before digits tail after,
        text = before +:+ m +:+ after
        ∧ m = String "$" (digits +:+ tail)
        ∧ digits ≠ EmptyString
        ∧ all_chars amount_char digits = true
        ∧ (∀ c rest, tail +:+ after = String c rest → amount_char c = false)
        ∧ (tail = EmptyString
           ∨ ∃ a b, tail = String "." (String a (String b EmptyString))
                    ∧ decimal a = true ∧ decimal b = true)
        ∧ (∀ a b rest,
             tail = EmptyString →
             after = String "." (String a (String b rest)) →
             decimal a && decimal b = false)
        ∧ ∀ u c rest,
            text = u +:+ String "$" (String c rest) →
            String.length u < String.length before →
            amount_char c = false
  | Undefined =>
      ∀ u c rest, text = u +:+ String "$" (String c rest) →
                  amount_char c = false
  | Null => False
  end.
Proof.
  unfold App.extractGrantAmount.
  destruct (App.amountMatch text) as [m|] eqn:Hm.
  - destruct (amountMatch_leftmost _ _ Hm)
      as (before & after & Htext & Hhere & Hleft).
    destruct (match_here_shape _ _ Hhere)
      as (digits & tail & after' & Hs & Hshape & Hd & Hall & Hmax & Hc & Ht).
    apply (inj (String.app m)) in Hs as <-.
    exists before, digits, tail, after. split_and!; try done.
    intros u c rest Hu Hlen. rewrite Htext in Hu. symmetry in Hu.
    destruct (append_cut _ _ _ _ Hu Hlen) as (w & Hw & Hne & Hv).
    apply (match_here_None _ c rest (Hleft u w Hw Hne)). by rewrite <- Hv.
  - intros u c rest Hu.
    exact (match_here_None _ c rest
             (proj1 (amountMatch_None text) Hm u _ Hu) eq_refl).
Qed.

Lemma extractGrantAmount_shape_witness :
  ∃ before after, test_org_text = before +:+ "$50,000" +:+ after.
Proof.
  pose proof (extractGrantAmount_shape test_org_text) as H.
  change (App.extractGrantAmount test_org_text) with (Value "$50,000") in H.
  destruct H as (before & _ & _ & after & H & _).
  by exists before, after.
Defined.

Section Years.

Lemma after_keyword_spec kw s rest :
  App.after_keyword kw s = Some rest →
  ∃ K, s = K +:+ rest ∧ toLowerCase K = kw.
Proof.
  revert s. induction kw as [|k kw IH]; intros s; simpl.
  - intros [= ->]. by exists EmptyString.
  - destruct s as [|c s]; [discriminate|].
    destruct (decide (lower_char c = k)) as [<-|]; [|discriminate].
    intros (K & -> & <-)%IH. by exists (String c K).
Qed.

Lemma after_keyword_complete K rest :
  App.after_keyword (toLowerCase K) (K +:+ rest) = Some rest.
Proof.
  induction K as [|c K IH]; [done|].
  change (String c K +:+ rest) with (String c (K +:+ rest)).
  cbn [toLowerCase App.after_keyword].
  by destruct (decide (lower_char c = lower_char c)).
Qed.

(** A keyword that begins otherwise is not found where [K] stands. *)
Lemma after_keyword_other k kw c K rest :
  lower_char c ≠ k →
  App.after_keyword (String k kw) (String c K +:+ rest) = None.
Proof.
  intros Hne. change (String c K +:+ rest) with (String c (K +:+ rest)).
  cbn [App.after_keyword]. by destruct (decide (lower_char c = k)).
Qed.

Lemma four_digits_spec s y :
  App.four_digits s = Some y →
  ∃ after, s = y +:+ after ∧ String.length y = 4
           ∧ all_chars decimal y = true.
Proof.
  destruct s as [|a [|b [|c [|d after]]]]; try discriminate. simpl.
  rewrite !digit_decimal.
  destruct (decimal a) eqn:Ha; [|discriminate].
  destruct (decimal b) eqn:Hb; [|discriminate].
  destruct (decimal c) eqn:Hc; [|discriminate].
  destruct (decimal d) eqn:Hd; [|discriminate].
  intros [= <-]. exists after. simpl. by rewrite Ha, Hb, Hc, Hd.
Qed.

Lemma four_digits_complete y after :
  String.length y = 4 → all_chars decimal y = true →
  App.four_digits (y +:+ after) = Some y.
Proof.
  destruct y as [|a [|b [|c [|d [|]]]]]; try discriminate. intros _.
  cbn [all_chars]. rewrite !andb_true_iff. intros (Ha & Hb & Hc & Hd & _).
  change (App.four_digits
            (String a (String b (String c (String d after))))
          = Some (String a (String b (String c (String d EmptyString))))).
  cbn [App.four_digits]. by rewrite !digit_decimal, Ha, Hb, Hc, Hd.
Qed.

Lemma keyword_year_spec kw s y :
  kw ∈ year_keywords →
  App.after_keyword kw s ≫= App.four_digits = Some y →
  year_at s y.
Proof.
  intros Hkw. destruct (App.after_keyword kw s) as [rest|] eqn:Hk;
    [|discriminate]. simpl.
  intros (after & -> & Hlen & Hall)%four_digits_spec.
  destruct (after_keyword_spec _ _ _ Hk) as (K & -> & <-).
  by exists K, after.
Qed.

Lemma year_here_spec s y : App.year_here s = Some y → year_at s y.
Proof.
  unfold App.year_here.
  destruct (App.after_keyword "founded in " s ≫= App.four_digits)
    as [y1|] eqn:H1.
  { intros [= <-]. apply (keyword_year_spec "founded in "); [|done].
    unfold year_keywords. set_solver. }
  destruct (App.after_keyword "established " s ≫= App.four_digits)
    as [y2|] eqn:H2.
  { intros [= <-]. apply (keyword_year_spec "established "); [|done].
    unfold year_keywords. set_solver. }
  apply (keyword_year_spec "since "). unfold year_keywords. set_solver.
Qed.

(** Each of the three keywords is found, whichever it is. *)
Lemma year_here_complete s y : year_at s y → App.year_here s = Some y.
Proof.
  intros (K & after & -> & HK & Hlen & Hall).
  pose proof (after_keyword_complete K (y +:+ after)) as Hfound.
  pose proof (four_digits_complete y after Hlen Hall) as Hyear.
  unfold year_keywords in HK.
  destruct K as [|c K].
  { cbn [toLowerCase] in HK.
    repeat (apply elem_of_cons in HK as [HK|HK]; [discriminate|]).
    by apply elem_of_nil in HK. }
  cbn [toLowerCase] in HK, Hfound.
  unfold App.year_here.
  apply elem_of_cons in HK as [HK|HK];
    [|apply elem_of_cons in HK as [HK|HK];
      [|apply list_elem_of_singleton in HK]].
  all: injection HK; intros Hrest Hc; rewrite Hc, Hrest in Hfound.
  - by rewrite Hfound; simpl; rewrite Hyear.
  - rewrite (after_keyword_other "f") by (rewrite Hc; discriminate).
    cbn [mbind option_bind]. by rewrite Hfound; simpl; rewrite Hyear.
  - rewrite (after_keyword_other "f") by (rewrite Hc; discriminate).
    rewrite (after_keyword_other "e") by (rewrite Hc; discriminate).
    cbn [mbind option_bind]. by rewrite Hfound; simpl; rewrite Hyear.
Qed.

Lemma yearMatch_leftmost text y :
  App.yearMatch text = Some y →
  ∃ before rest,
    text = before +:+ rest
    ∧ App.year_here rest = Some y
    ∧ ∀ u v, before = u +:+ v → v ≠ EmptyString →
             App.year_here (v +:+ rest) = None.
Proof.
  induction text as [|c text IH].
  - cbn [App.yearMatch].
    change (App.year_here EmptyString) with (@None string). discriminate.
  - cbn [App.yearMatch].
    destruct (App.year_here (String c text)) as [y'|] eqn:Hhere.
    + intros [= ->]. exists EmptyString, (String c text).
      split; [done|]. split; [exact Hhere|].
      intros [|] [|]; try discriminate. done.
    + intros Hrec. destruct (IH Hrec) as (before & rest & -> & Hy & Hnone).
      exists (String c before), rest. split; [reflexivity|].
      split; [exact Hy|].
      intros [|d u] v Huv Hv.
      * change (String c before = v) in Huv. subst v. exact Hhere.
      * change (String c before = String d (u +:+ v)) in Huv.
        injection Huv as <- ->. exact (Hnone u v eq_refl Hv).
Qed.

Lemma yearMatch_None text :
  App.yearMatch text = None →
  ∀ u v, text = u +:+ v → App.year_here v = None.
Proof.
  induction text as [|c text IH].
  - intros _ [|] [|]; try discriminate. done.
  - cbn [App.yearMatch].
    destruct (App.year_here (String c text)) eqn:Hhere; [discriminate|].
    intros Hrec [|d u] v Huv.
    + change (String c text = v) in Huv. by subst v.
    + change (String c text = String d (u +:+ v)) in Huv.
      injection Huv as <- ->. by apply (IH Hrec u).
Qed.

End Years.

(** X11.  What [extractFoundingYear] finds is the four digits that follow
    the leftmost place of the text where one of the keywords [founded in ],
    [established ] or [since ], written in any mix of upper and lower case,
    is followed by four digits; of a longer number it takes the first four
    digits.  It finds nothing exactly when no place of the text has one of
    the three keywords followed by four digits.  The digits are the ten
    characters 0 to 9. *)
Theorem extractFoundingYear_shape text :
  match App.extractFoundingYear text with
  | Value y =>
      ∃ before rest,
        text = before +:+ rest
        ∧ year_at rest y
        ∧ (∀ y', year_at rest y' → y' = y)
        ∧ ∀ u v y', text = u +:+ v → year_at v y' →
                    String.length before ≤ String.length u
  | Undefined => ∀ u v y', text = u +:+ v → ¬ year_at v y'
  | Null => False
  end.
Proof.
  unfold App.extractFoundingYear.
  destruct (App.yearMatch text) as [y|] eqn:Hm.
  - destruct (yearMatch_leftmost _ _ Hm) as (before & rest & -> & Hy & Hleft).
    exists before, rest. split_and!; [done|by apply year_here_spec| |].
    + intros y' Hy'%year_here_complete. congruence.
    + intros u v y' Hu Hy'%year_here_complete.
      destruct (decide (String.length u < String.length before)) as [Hlen|];
        [|lia].
      symmetry in Hu. destruct (append_cut _ _ _ _ Hu Hlen)
        as (w & Hw & Hne & ->).
      rewrite (Hleft u w Hw Hne) in Hy'. discriminate.
  - intros u v y' Hu Hy'%year_here_complete.
    rewrite (yearMatch_None _ Hm u v Hu) in Hy'. discriminate.
Qed.

Lemma extractFoundingYear_shape_witness :
  ∃ before rest,
    "Serving Queens SINCE 20145" = before +:+ rest ∧ year_at rest "2014".
Proof.
  pose proof (extractFoundingYear_shape "Serving Queens SINCE 20145") as H.
  change (App.extractFoundingYear "Serving Queens SINCE 20145")
    with (Value "2014") in H.
  destruct H as (before & rest & Htext & Hy & _).
  by exists before, rest.
Defined.

Section Paragraphs.


End Paragraphs.


(** What the form hands on has a reason chosen. *)
Lemma handleGenerate_valid selectedReason specificReasons :
  match DeclineInput.handleGenerate selectedReason specificReasons with
  | inr (reasonCode, reasons) =>
      reasonCode = selectedReason ∧ reasons = specificReasons
      ∧ selectedReason ≠ EmptyString
  | inl _ => True
  end.
Proof.
  unfold DeclineInput.handleGenerate.
  cbn [DeclineInput.reason DeclineInput.details].
  destruct (decide (selectedReason = EmptyString));
    destruct (decide (trim specificReasons = EmptyString)); done.
Qed.

(* ------------------------------------------------------------------ *)
(** * The wizard over whole sessions *)

Section Sessions.

(** The call and its resumption, with nothing in between, are the handler
    run to its end. *)
Lemma handleFileUploaded_in_two_steps cfg net file p :
  let called := Wizard.handleFileUploaded_called cfg (Some file) p in
  Wizard.handleFileUploaded_resumed net file
    (Wizard.state called) (Wizard.browser called)
  = App.handleFileUploaded cfg net (Some file)
      (Wizard.state p) (Wizard.browser p).
Proof.
  unfold Wizard.handleFileUploaded_resumed, App.handleFileUploaded.
  cbn. by destruct (App.analysed net file).
Qed.

Lemma chosen_option selectedReason :
  selectedReason ∈ DeclineInput.options → selectedReason ≠ EmptyString →
  ∃ r, r ∈ DeclineInput.DECLINE_REASONS
       ∧ DeclineInput.value r = selectedReason.
Proof.
  unfold DeclineInput.options. intros [->|Hin]%elem_of_cons Hne; [done|].
  apply list_elem_of_fmap in Hin as (r & -> & Hr). eauto.
Qed.

(** A call from a page where nothing is awaited and no output is held. *)
Lemma consistent_called cfg file p :
  Wizard.consistent cfg p →
  Wizard.awaiting p = [] →
  App.generatedOutput (Wizard.state p) = None →
  Wizard.consistent cfg (Wizard.handleFileUploaded_called cfg (Some file) p).
Proof.
  destruct p as [st b aw]. cbn.
  intros (Hgen & Haw & Hout & Hf & Ha & Hlen) -> Hnone.
  unfold Wizard.consistent. cbn in *.
  split_and!; try done.
  - apply Forall_app. split; [exact Hf|by repeat constructor].
  - rewrite length_app. simpl. lia.
Qed.

(** The outcome of the one fetch that is awaited. *)
Lemma consistent_resumed cfg net file p :
  Wizard.consistent cfg p →
  Wizard.awaiting p = [file] →
  Wizard.consistent cfg (Wizard.dispatch cfg (Wizard.Settled 0 net) p).
Proof.
  destruct p as [st b aw]. cbn.
  intros (Hgen & Haw & Hout & Hf & Ha & Hlen) ->.
  destruct Haw as (Han & Hstage & Hfile & Hnone).
  unfold Wizard.consistent, Wizard.handleFileUploaded_resumed,
    Wizard.stage_data.
  cbn in *.
  destruct (App.analysed net file); cbn; rewrite Hstage, Hfile, Hnone.
  - split_and!; eauto; [done|lia].
  - split_and!; eauto; [done| |].
    + apply Forall_app. split; [exact Ha|by repeat constructor].
    + rewrite length_app. simpl. lia.
Qed.

Lemma consistent_step cfg p ev :
  Wizard.consistent cfg p → Wizard.offered p ev = true →
  Wizard.consistent cfg (Wizard.dispatch cfg ev p).
Proof.
  intros Hc Hoff.
  pose proof Hc as (Hgen & Haw & Hout & Hf & Ha & Hlen).
  destruct (Wizard.awaiting p) as [|file [|file' aw]] eqn:Hp; [| |done].
  - (* nothing is awaited *)
    destruct Haw as (Han & Hdata). unfold Wizard.stage_data in Hdata.
    destruct ev as [file|call net| | |selectedReason specificReasons| |];
      cbn [Wizard.offered Wizard.dispatch] in *.
    + destruct (App.currentStage (Wizard.state p)) eqn:Hstage;
        try discriminate.
      destruct file as [file|]; [|exact Hc].
      apply consistent_called; [exact Hc|exact Hp|tauto].
    + rewrite Hp in Hoff. apply bool_decide_eq_true in Hoff as [? Hoff].
      by rewrite lookup_nil in Hoff.
    + destruct (App.currentStage (Wizard.state p)) eqn:Hstage;
        try discriminate.
      unfold Wizard.consistent, Wizard.stage_data. cbn. rewrite Hp.
      split_and!; try done; tauto.
    + destruct (App.currentStage (Wizard.state p)) eqn:Hstage;
        try discriminate.
      destruct Hdata as ([file Hfile] & _ & Hnone).
      unfold Wizard.handleRegenerateSummary. rewrite Hfile.
      by apply consistent_called.
    + destruct (App.currentStage (Wizard.state p)) eqn:Hstage;
        try discriminate.
      apply andb_true_iff in Hoff as [Hoff Hopt].
      apply bool_decide_eq_true in Hopt.
      pose proof (handleGenerate_valid selectedReason specificReasons) as Hv.
      destruct (DeclineInput.handleGenerate selectedReason specificReasons)
        as [errors|[reasonCode reasons]]; [exact Hc|].
      destruct Hv as (-> & -> & Hsel).
      destruct (chosen_option _ Hopt Hsel) as (r & Hr & <-).
      unfold App.handleGenerateDecline.
      destruct Hdata as (Hfile & [summary Hsummary] & Hnone).
      rewrite Hsummary.
      destruct (generated_memo_last_line r summary specificReasons Hr)
        as (memo & -> & Hline).
      unfold Wizard.consistent, Wizard.stage_data. cbn.
      rewrite Hp, Hsummary. split_and!; eauto.
      intros o [= <-]. unfold Wizard.labelled_output. cbn. eauto.
    + destruct (App.currentStage (Wizard.state p)) eqn:Hstage;
        try discriminate.
      unfold Wizard.consistent, Wizard.stage_data. cbn. rewrite Hp.
      split_and!; eauto. discriminate.
    + unfold Wizard.consistent, Wizard.stage_data. cbn. rewrite Hp.
      destruct (App.currentStage (Wizard.state p));
        split_and!; try done; tauto.
  - (* one fetch is awaited: the review stage draws a spinner *)
    destruct Haw as (Han & Hstage & Hfile & Hnone).
    destruct ev as [file0|call net| | |selectedReason specificReasons| |];
      cbn [Wizard.offered Wizard.dispatch] in *;
      rewrite ?Hstage, ?Han, ?andb_false_r in Hoff; try discriminate.
    + rewrite Hp in Hoff. apply bool_decide_eq_true in Hoff as [? Hoff].
      destruct call as [|call]; [|by rewrite lookup_cons, lookup_nil in Hoff].
      exact (consistent_resumed cfg net file p Hc Hp).
    + unfold Wizard.consistent. cbn. rewrite Hp. by split_and!.
Qed.

(** Every page of a session is consistent. *)
Lemma visited_consistent cfg p :
  Wizard.visited cfg p → Wizard.consistent cfg p.
Proof.
  induction 1 as [|p ev _ IH Hoff].
  - unfold Wizard.consistent, Wizard.stage_data. cbn.
    split_and!; try done; constructor.
  - by apply consistent_step.
Qed.

Lemma run_visited cfg evs : Wizard.visited cfg (Wizard.run cfg evs).
Proof.
  unfold Wizard.run. induction evs as [|ev evs IH] using rev_ind.
  - constructor.
  - rewrite foldl_app. cbn [foldl]. unfold Wizard.react at 1.
    destruct (Wizard.offered _ ev) eqn:Hoff; [|exact IH].
    by apply Wizard.visited_step.
Qed.

Lemma session_reachable cfg evs : Wizard.reachable cfg (Wizard.session cfg evs).
Proof. exists (Wizard.run cfg evs). split; [apply run_visited|done]. Qed.

(** What the states of a session have in common, a fetch pending or not. *)
Lemma reachable_facts cfg s :
  Wizard.reachable cfg s →
  App.isGenerating s.1 = false
  ∧ match App.currentStage s.1 with
    | App.upload | App.analysis | App.decline =>
        App.generatedOutput s.1 = None
    | App.output => is_Some (App.generatedOutput s.1)
    end
  ∧ (∀ out, App.generatedOutput s.1 = Some out → Wizard.labelled_output out)
  ∧ Forall (λ url, url = App.ANALYZE_URL cfg) (App.fetches s.2)
  ∧ Forall (λ msg, msg = App.analysis_alert) (App.alerts s.2)
  ∧ length (App.alerts s.2) ≤ length (App.fetches s.2).
Proof.
  intros (p & Hp & ->). cbn [fst snd].
  destruct (visited_consistent cfg p Hp) as (Hgen & Haw & Hout & Hf & Ha & Hlen).
  split_and!; try done; [|lia].
  destruct (Wizard.awaiting p) as [|file [|file' aw]]; [| |done].
  - destruct Haw as (_ & Hdata). unfold Wizard.stage_data in Hdata.
    destruct (App.currentStage (Wizard.state p)); tauto.
  - destruct Haw as (_ & -> & _ & Hnone). exact Hnone.
Qed.

End Sessions.

(** X13. On every page of a session, also those drawn while a fetch is
    pending, the stage has its data.  The upload stage holds no file, no
    summary and no output; the review stage holds a file and no output;
    the decline stage a file, a summary and no output; the output stage all
    three.  [isAnalyzing] is set exactly while a call of
    [handleFileUploaded] awaits its fetch, which happens in the review
    stage only, for one call at a time, whose file is the stored one; the
    review stage is without a summary (the spinner of the page) only then.
    [isGenerating] is never left set. *)
Theorem stage_has_its_data cfg p :
  Wizard.visited cfg p →
  let st := Wizard.state p in
  App.isGenerating st = false
  ∧ (App.isAnalyzing st = true ↔ Wizard.awaiting p ≠ [])
  ∧ (∀ file, file ∈ Wizard.awaiting p →
       Wizard.awaiting p = [file] ∧ App.uploadedFile st = Some file
       ∧ App.currentStage st = App.analysis)
  ∧ match App.currentStage st with
    | App.upload =>
        App.uploadedFile st = None ∧ App.proposalSummary st = None
        ∧ App.generatedOutput st = None
    | App.analysis =>
        is_Some (App.uploadedFile st) ∧ App.generatedOutput st = None
        ∧ (App.proposalSummary st = None → App.isAnalyzing st = true)
    | App.decline =>
        is_Some (App.uploadedFile st) ∧ is_Some (App.proposalSummary st)
        ∧ App.generatedOutput st = None
    | App.output =>
        is_Some (App.uploadedFile st) ∧ is_Some (App.proposalSummary st)
        ∧ is_Some (App.generatedOutput st)
    end.
Proof.
  intros Hp. cbv zeta.
  destruct (visited_consistent cfg p Hp) as (Hgen & Haw & _).
  split; [exact Hgen|].
  destruct (Wizard.awaiting p) as [|file [|file' aw]]; [| |done].
  - destruct Haw as (Han & Hdata). unfold Wizard.stage_data in Hdata.
    rewrite Han. split; [done|]. split.
    + by intros file Hin%elem_of_nil.
    + destruct (App.currentStage (Wizard.state p)); try done.
      destruct Hdata as (Hfile & [summary Hsummary] & Hnone).
      by rewrite Hsummary.
  - destruct Haw as (Han & Hstage & Hfile & Hnone).
    rewrite Han, Hstage, Hfile, Hnone. split; [done|]. split.
    + intros file0 Hin%list_elem_of_singleton. by subst.
    + eauto.
Qed.

Lemma stage_has_its_data_witness :
  let p := Wizard.run local_config upload_in_flight in
  App.isAnalyzing (Wizard.state p) = true
  ∧ Wizard.awaiting p = [test_org_file]
  ∧ App.proposalSummary (Wizard.state p) = None
  ∧ App.generatedOutput (Wizard.state p) = None.
Proof.
  pose proof (stage_has_its_data local_config
                (Wizard.run local_config upload_in_flight)
                (run_visited local_config upload_in_flight))
    as (_ & _ & _ & H).
  cbv zeta in *.
  change (App.currentStage
            (Wizard.state (Wizard.run local_config upload_in_flight)))
    with App.analysis in H.
  split_and!; [reflexivity|reflexivity|reflexivity|tauto].
Defined.

(** X14. In every state of a session the progress line reads 0, 25, 50 or
    100 percent by stage (upload, review, decline, output), never 75, and
    the heading under it is the title of the step with the stage's number;
    the word Complete is never shown and the lookup never fails. *)
Theorem progress_by_stage cfg s :
  Wizard.reachable cfg s →
  App.percentComplete s.1
  = match App.currentStage s.1 with
    | App.upload => 0 | App.analysis => 25
    | App.decline => 50 | App.output => 100
    end
  ∧ App.percentComplete s.1 ≠ 75
  ∧ ∃ step, App.steps s.1 !! (App.getProgressStep s.1 - 1) = Some step
            ∧ App.id step = App.getProgressStep s.1
            ∧ App.heading s.1 = Ok (App.title step)
            ∧ App.title step ≠ "Complete".
Proof.
  intros Hs. destruct (reachable_facts cfg s Hs) as (_ & Hout & _).
  unfold App.percentComplete, App.heading, App.getProgressStep, App.steps.
  destruct (App.currentStage s.1) eqn:Hstage.
  1-3: rewrite Hout.
  4: destruct Hout as [out ->].
  all: split; [reflexivity|]; split; [by vm_compute|].
  all: eexists; split_and!; [reflexivity|reflexivity|reflexivity|done].
Qed.

Lemma progress_by_stage_witness :
  App.percentComplete (Wizard.session local_config offline_session).1 = 100.
Proof.
  exact (proj1 (progress_by_stage local_config _
                  (session_reachable local_config offline_session))).
Defined.

(** X15. Whatever the user does, the only address the wizard fetches is the
    Analyze endpoint and the only alert it raises is the note about basic
    text extraction, at most one per fetch.  The Generate endpoint, when it
    differs from the Analyze one, is never called, and the alert of the
    generate step is never raised. *)
Theorem only_analyze_is_called cfg s :
  Wizard.reachable cfg s →
  Forall (λ url, url = App.ANALYZE_URL cfg) (App.fetches s.2)
  ∧ Forall (λ msg, msg = App.analysis_alert) (App.alerts s.2)
  ∧ length (App.alerts s.2) ≤ length (App.fetches s.2)
  ∧ (App.GENERATE_URL cfg ≠ App.ANALYZE_URL cfg →
     App.GENERATE_URL cfg ∉ App.fetches s.2)
  ∧ App.generation_alert ∉ App.alerts s.2.
Proof.
  intros Hs.
  destruct (reachable_facts cfg s Hs) as (_ & _ & _ & Hf & Ha & Hlen).
  split_and!; try done.
  - intros Hne Hin. by apply (proj1 (Forall_forall _ _) Hf) in Hin.
  - intros Hin. by apply (proj1 (Forall_forall _ _) Ha) in Hin.
Qed.

Lemma only_analyze_is_called_witness :
  let s := Wizard.session local_config offline_session in
  App.fetches s.2 = [App.ANALYZE_URL local_config]
  ∧ App.GENERATE_URL local_config ∉ App.fetches s.2.
Proof.
  split; [reflexivity|].
  apply (only_analyze_is_called local_config _
           (session_reachable local_config offline_session)).
  discriminate.
Defined.

(** X16. An output the wizard holds, in any state of a session, was built
    on the page: its letter is the fixed letter, its time is 2000 ms, and
    its memo ends with the line Rationale: followed by the label of one of
    the eight listed reasons (never the placeholder Decline Reason). *)
Theorem stored_output_is_labelled cfg s out :
  Wizard.reachable cfg s →
  App.generatedOutput s.1 = Some out →
  App.external_reply out = App.generateExternalLetter EmptyString
  ∧ App.generation_time_ms out = 2000%Z
  ∧ (∃ r, r ∈ DeclineInput.DECLINE_REASONS
          ∧ last_line (App.internal_rationale out)
            = Some ("Rationale: " +:+ DeclineInput.label r))
  ∧ last_line (App.internal_rationale out) ≠ Some "Rationale: Decline Reason".
Proof.
  intros Hs Hout.
  destruct (reachable_facts cfg s Hs) as (_ & _ & Hl & _).
  destruct (Hl out Hout) as (Hletter & Htime & r & Hr & Hline).
  split_and!; eauto.
  rewrite Hline. clear -Hr.
  unfold DeclineInput.DECLINE_REASONS in Hr.
  repeat (apply elem_of_cons in Hr as [->|Hr]; [by cbn|]).
  by apply elem_of_nil in Hr.
Qed.

Lemma stored_output_is_labelled_witness :
  ∃ out,
    App.generatedOutput (Wizard.session local_config offline_session).1
    = Some out
    ∧ App.generation_time_ms out = 2000%Z
    ∧ last_line (App.internal_rationale out)
      ≠ Some "Rationale: Decline Reason".
Proof.
  eexists. split; [reflexivity|].
  pose proof (stored_output_is_labelled local_config
                (Wizard.session local_config offline_session) _
                (session_reachable local_config offline_session) eq_refl)
    as (_ & Htime & _ & Hline).
  exact (conj Htime Hline).
Defined.

(* ------------------------------------------------------------------ *)
(** * The review panel and the endpoints *)

Section Panel.

Lemma or_default_filled v d : d ≠ EmptyString → or_default v d ≠ EmptyString.
Proof.
  intros Hd. destruct v as [| |s]; try done.
  unfold or_default, or_string. by destruct (decide (s = EmptyString)).
Qed.

Lemma or_default_truthy v d : truthy v = true → or_default v d = interpolate v.
Proof.
  destruct v as [| |s]; try done. cbn. intros Hs%bool_decide_eq_true.
  unfold or_string. by destruct (decide (s = EmptyString)).
Qed.



End Panel.


(** X18. The two endpoints the page is configured with are never empty.  A
    non-empty VITE_ANALYZE_URL (VITE_GENERATE_URL) is used as it is, whatever
    VITE_API_URL says; otherwise the endpoint is the API base followed by
    /analyze (/generate), the base being http://localhost:8000 unless
    VITE_API_URL is non-empty.  With neither override the two differ. *)
Theorem endpoints_are_set env :
  Config.ANALYZE_URL env ≠ EmptyString
  ∧ Config.GENERATE_URL env ≠ EmptyString
  ∧ (if truthy (Config.VITE_ANALYZE_URL env)
     then Value (Config.ANALYZE_URL env) = Config.VITE_ANALYZE_URL env
     else Config.ANALYZE_URL env = Config.API_URL env +:+ "/analyze")
  ∧ (if truthy (Config.VITE_GENERATE_URL env)
     then Value (Config.GENERATE_URL env) = Config.VITE_GENERATE_URL env
     else Config.GENERATE_URL env = Config.API_URL env +:+ "/generate")
  ∧ (if truthy (Config.VITE_API_URL env)
     then Value (Config.API_URL env) = Config.VITE_API_URL env
     else Config.API_URL env = "http://localhost:8000")
  ∧ (truthy (Config.VITE_ANALYZE_URL env) = false →
     truthy (Config.VITE_GENERATE_URL env) = false →
     Config.ANALYZE_URL env ≠ Config.GENERATE_URL env).
Proof.
  assert (Hbase : ∀ base tail, tail ≠ EmptyString → base +:+ tail ≠ EmptyString).
  { intros [|c base] tail Ht; [exact Ht|discriminate]. }
  assert (Hor : ∀ v d,
            if truthy v then Value (or_default v d) = v else or_default v d = d).
  { intros [| |s] d; cbn; unfold or_string; try done.
    destruct (bool_decide_reflect (s ≠ EmptyString)) as [Hs|Hs];
      destruct (decide (s = EmptyString)); done. }
  unfold Config.ANALYZE_URL, Config.GENERATE_URL, Config.API_URL.
  split_and!; try apply Hor.
  - apply or_default_filled. by apply Hbase.
  - apply or_default_filled. by apply Hbase.
  - intros Ha Hg.
    pose proof (Hor (Config.VITE_ANALYZE_URL env)) as H1.
    pose proof (Hor (Config.VITE_GENERATE_URL env)) as H2.
    rewrite Ha in H1. rewrite Hg in H2. rewrite H1, H2.
    generalize (or_default (Config.VITE_API_URL env) "http://localhost:8000").
    intros base. induction base as [|c base IH]; [discriminate|].
    intros [= H]. by apply IH.
Qed.

Lemma endpoints_are_set_witness :
  Config.ANALYZE_URL no_env = "http://localhost:8000/analyze"
  ∧ Config.ANALYZE_URL no_env ≠ Config.GENERATE_URL no_env.
Proof.
  split; [reflexivity|].
  apply (endpoints_are_set no_env); reflexivity.
Defined.

(** X19. When an upload brings no summary from the backend (the fetch
    fails, the reply is not ok, its body is not JSON or has no summary),
    the review panel is drawn, not the spinner, with exactly the five fixed
    rows and no deliverables, and every row shows the stored field itself:
    none of the panel's own placeholders is used. *)
Theorem local_summary_on_panel cfg net file st b :
  (∀ summary, net ≠ App.Reply true (Some (Value summary))) →
  let st' := (App.handleFileUploaded cfg net (Some file) st b).1 in
  ∃ summary,
    App.proposalSummary st' = Some summary
    ∧ ProposalSummary.render summary (App.isAnalyzing st')
      = ProposalSummary.Panel
          (zip fixed_labels
             (interpolate
                <$> [ organizationName summary; grantAmount summary;
                      targetPopulation summary; geographicScope summary;
                      projectDescription summary ]))
          [].
Proof.
  intros Hnet. cbv zeta.
  assert (Hor : ∀ s d, s ≠ EmptyString → or_string s d = s).
  { intros s d Hs. unfold or_string. by destruct (decide (s = EmptyString)). }
  assert (Hfill : ∀ s d, d ≠ EmptyString → or_string s d ≠ EmptyString).
  { intros s d Hd. unfold or_string. by destruct (decide (s = EmptyString)). }
  assert (Hdefault : ∀ v d e,
            d ≠ EmptyString → or_string (or_default v d) e = or_default v d).
  { intros v d e Hd. by apply Hor, or_default_filled. }
  assert (Hstring : ∀ s d e,
            d ≠ EmptyString → or_string (or_string s d) e = or_string s d).
  { intros s d e Hd. by apply Hor, Hfill. }
  unfold App.handleFileUploaded.
  destruct net as [|[|] [[| |summary]|]]; cbn [App.analysed];
    try (by destruct (Hnet summary)).
  all: eexists; split; [reflexivity|].
  all: unfold ProposalSummary.render, ProposalSummary.rows,
         ProposalSummary.deliverables, ProposalSummary.when_present,
         App.basicSummary, App.fallbackSummary.
  all: cbn -[prefix or_string App.extractOrganizationName
             App.extractGrantAmount].
  all: rewrite !Hdefault, !Hstring by done.
  all: reflexivity.
Qed.

Lemma local_summary_on_panel_witness :
  ∃ summary,
    App.proposalSummary
      (App.handleFileUploaded local_config App.NetworkError
         (Some test_org_file) initial quiet).1 = Some summary
    ∧ (ProposalSummary.rows summary).*1 = fixed_labels.
Proof.
  destruct (local_summary_on_panel local_config App.NetworkError
              test_org_file initial quiet) as (summary & Hs & Hr).
  - discriminate.
  - exists summary. split; [exact Hs|].
    injection Hs as <-. reflexivity.
Defined.

(** X20. Start New Process, on any page of a session that shows it, puts
    the wizard back in the state of the first render: no file, no summary,
    no output, nothing busy, the upload stage.  Only the analytics toggle
    and what the browser has seen are kept, and no call is left awaiting a
    fetch whose outcome would write into the new state. *)
Theorem start_new_is_first_render cfg p :
  Wizard.visited cfg p →
  Wizard.offered p Wizard.StartNew = true →
  Wizard.dispatch cfg Wizard.StartNew p
  = {| Wizard.state :=
         App.setShowMetrics (App.showMetrics (Wizard.state p)) initial;
       Wizard.browser := Wizard.browser p;
       Wizard.awaiting := [] |}.
Proof.
  intros Hp Hoff.
  destruct (visited_consistent cfg p Hp) as (Hgen & Haw & _).
  destruct p as [[] b aw]. cbn in *.
  apply andb_true_iff in Hoff as [Hstage _].
  destruct aw as [|file [|file' aw]]; [| |done].
  - destruct Haw as (Han & _). by subst.
  - destruct Haw as (_ & -> & _). discriminate.
Qed.

Lemma start_new_is_first_render_witness :
  let p := Wizard.run local_config (offline_session ++ [Wizard.StartNew]) in
  Wizard.state p = initial ∧ Wizard.awaiting p = [].
Proof.
  pose proof (start_new_is_first_render local_config
                (Wizard.run local_config offline_session)
                (run_visited local_config offline_session) eq_refl) as H.
  split; [exact (f_equal Wizard.state H)|exact (f_equal Wizard.awaiting H)].
Defined.
